(** * LandCraftAi: the procedural house-geometry generator of [src/app.py]

    A shallow embedding of the geometry core of the application:
    [create_furniture], [create_outdoor_plants], [create_internal_walls],
    [generate_realistic_house_glb] (the template path, "Path B"),
    [generate_glb_from_json] (the JSON-driven path, "Path A") and
    [generate_svg_floor_plan].

    Modelling conventions.
    - Python numbers are exact rationals ([Q]).  Every coordinate of the
      hardcoded templates is a dyadic rational of small magnitude, so the
      sums, differences and halvings the template path performs on them are
      computed without rounding by binary floating point as well.  The
      division by 3.28 of the JSON path is exact here and rounded in Python;
      nothing below depends on an equality that rounding could break.
      JSON numbers are taken to be finite and within the range of a float.
    - A [trimesh] mesh is a primitive (box, cylinder, cone) created around
      the origin, together with the translation added to its vertices and
      its flat vertex colour.
    - A [trimesh.Scene] is the sequence of its named nodes in insertion
      order; [add_geometry] appends one node.
    - Python exceptions are a [result] monad; [try ... except Exception] is
      [try_except].
    - The serialisation [scene.export(file_type='glb')] is a function of the
      scene alone; the functions below return the scene that is exported. *)

From Stdlib Require Import QArith Qabs ZArith List String Ascii Bool Lia.
From Stdlib Require Import Decimal DecimalString.
From Stdlib Require Import Lqa.
Import ListNotations.

Local Open Scope Q_scope.
Local Open Scope string_scope.

(** ** Numbers *)

Module PyNum.

(** Python's [a < b] on numbers. *)
Definition ltb (a b : Q) : bool :=
  (Qnum a * Zpos (Qden b) <? Qnum b * Zpos (Qden a))%Z.

(** Python's [a > b]. *)
Definition gtb (a b : Q) : bool := ltb b a.

(** [max(a, b)]: the first argument unless the second is greater. *)
Definition max2 (a b : Q) : Q := if gtb b a then b else a.

(** [min(a, b)]: the first argument unless the second is smaller. *)
Definition min2 (a b : Q) : Q := if ltb b a then b else a.

(** [max(l)] for a list.  Python raises [ValueError] on an empty list; both
    call sites pass a non-empty one (the templates are non-empty, and the
    JSON path guards with [or [10]]), so the value given to [[]] is never
    observed. *)
Definition max_list (l : list Q) : Q :=
  match l with
  | [] => 0
  | x :: xs => fold_left max2 xs x
  end.

(** Stand-in for [np.sqrt] on a non-negative number: the square root
    truncated to six decimals. *)
Definition np_sqrt (q : Q) : Q :=
  Z.sqrt (Qnum q * 10 ^ 12 / Zpos (Qden q)) # 1000000.

End PyNum.

(** ** Strings *)

Module PyStr.

(** The double-quote character, for the markup strings. *)
Definition dq : string := String (ascii_of_nat 34) EmptyString.

(** [str(n)] for an integer, as an f-string prints it. *)
Definition of_Z (n : Z) : string := NilZero.string_of_int (Z.to_int n).

Definition of_nat (n : nat) : string := of_Z (Z.of_nat n).

Definition lower_ascii (c : ascii) : ascii :=
  let n := nat_of_ascii c in
  if (65 <=? n)%nat && (n <=? 90)%nat then ascii_of_nat (n + 32) else c.

(** [s.lower()] on ASCII text. *)
Fixpoint lower (s : string) : string :=
  match s with
  | EmptyString => EmptyString
  | String c t => String (lower_ascii c) (lower t)
  end.

(** [needle in hay]: substring test. *)
Fixpoint contains (needle hay : string) : bool :=
  if String.prefix needle hay then true
  else match hay with
       | EmptyString => false
       | String _ t => contains needle t
       end.

(** [s.startswith(p)] and [s.endswith(p)], used to classify node names. *)
Definition startswith (p s : string) : bool := String.prefix p s.

Definition endswith (p s : string) : bool :=
  let n := String.length s in
  let m := String.length p in
  (m <=? n)%nat && String.eqb (String.substring (n - m) m s) p.

End PyStr.

(** ** Meshes and scenes *)

Module Mesh.

Definition vec3 : Type := (Q * Q * Q)%type.
Definition rgba : Type := list Z.

(** The primitives of [trimesh.creation] the program uses.  A box and a
    cylinder are centred on the origin; a cone has its base on [z = 0]. *)
Inductive primitive : Type :=
| box (extents : vec3)
| cylinder (radius height : Q)
| cone (radius height : Q).

(** A mesh: the primitive, the vector added to [mesh.vertices], and
    [mesh.visual.vertex_colors]. *)
Record Trimesh : Type := mkMesh {
  geom : primitive;
  offset : vec3;
  vertex_colors : rgba
}.

Definition node : Type := (string * Trimesh)%type.

(** [trimesh.Scene()]: the nodes in insertion order. *)
Definition Scene : Type := list node.

Definition new_scene : Scene := [].

(** [scene.add_geometry(mesh, node_name=name)]. *)
Definition add_geometry (scene : Scene) (mesh : Trimesh) (node_name : string)
  : Scene := (scene ++ [(node_name, mesh)])%list.

Definition node_names (scene : Scene) : list string := map fst scene.

(** The footprint of a translated box on the ground plane. *)
Definition x_extent (m : Trimesh) : Q :=
  match geom m with box (ex, _, _) => ex | cylinder r _ | cone r _ => 2 * r end.
Definition y_extent (m : Trimesh) : Q :=
  match geom m with box (_, ey, _) => ey | cylinder r _ | cone r _ => 2 * r end.
Definition z_extent (m : Trimesh) : Q :=
  match geom m with box (_, _, ez) => ez | cylinder _ h | cone _ h => h end.

Definition cx (m : Trimesh) : Q := fst (fst (offset m)).
Definition cy (m : Trimesh) : Q := snd (fst (offset m)).
Definition cz (m : Trimesh) : Q := snd (offset m).

Definition x_min (m : Trimesh) : Q := cx m - x_extent m / 2.
Definition x_max (m : Trimesh) : Q := cx m + x_extent m / 2.
Definition y_min (m : Trimesh) : Q := cy m - y_extent m / 2.
Definition y_max (m : Trimesh) : Q := cy m + y_extent m / 2.

(** [covers a b]: the footprint of [a] contains the footprint of [b]. *)
Definition covers (a b : Trimesh) : bool :=
  Qle_bool (x_min a) (x_min b) && Qle_bool (x_max b) (x_max a) &&
  Qle_bool (y_min a) (y_min b) && Qle_bool (y_max b) (y_max a).

(** The node registered under a name (the last one added under it). *)
Definition find_node (name : string) (scene : Scene) : option Trimesh :=
  match find (fun n => String.eqb (fst n) name) (List.rev scene) with
  | Some n => Some (snd n)
  | None => None
  end.

End Mesh.

Import Mesh.

(** ** The template path (Path B) *)

Module House.

(** A template room: the dict literals of [generate_realistic_house_glb]. *)
Record room : Type := mkRoom {
  name : string;
  x : Q;
  y : Q;
  w : Q;
  d : Q;
  h : Q;
  color : rgba
}.

(** [create_furniture(room_type, x, y, z, room_w, room_d)]. *)
Definition create_furniture (room_type : string) (x y z room_w room_d : Q)
  : list (string * Trimesh) :=
  let furniture := [] in
  if PyStr.contains "bedroom" (PyStr.lower room_type) then
    let bed := mkMesh (box (1.8, 2.0, 0.5))
                      (x + room_w / 2, y + room_d / 2, z + 0.25)
                      [139; 69; 19; 255]%Z in
    let furniture := (furniture ++ [("Bed", bed)])%list in
    let nightstand := mkMesh (box (0.4, 0.4, 0.5))
                             (x + room_w / 2 + 1.2, y + room_d / 2, z + 0.25)
                             [160; 82; 45; 255]%Z in
    (furniture ++ [("Nightstand", nightstand)])%list
  else if PyStr.contains "living" (PyStr.lower room_type) then
    let sofa := mkMesh (box (2.0, 0.8, 0.7))
                       (x + room_w / 2, y + 1.0, z + 0.35)
                       [70; 130; 180; 255]%Z in
    let furniture := (furniture ++ [("Sofa", sofa)])%list in
    let table := mkMesh (box (1.0, 0.6, 0.4))
                        (x + room_w / 2, y + 2.2, z + 0.2)
                        [139; 69; 19; 255]%Z in
    (furniture ++ [("Table", table)])%list
  else if PyStr.contains "kitchen" (PyStr.lower room_type) then
    let counter := mkMesh (box (room_w - 0.5, 0.6, 0.9))
                          (x + room_w / 2, y + 0.5, z + 0.45)
                          [192; 192; 192; 255]%Z in
    (furniture ++ [("Counter", counter)])%list
  else if PyStr.contains "dining" (PyStr.lower room_type) then
    let table := mkMesh (box (1.5, 1.0, 0.75))
                        (x + room_w / 2, y + room_d / 2, z + 0.375)
                        [139; 69; 19; 255]%Z in
    (furniture ++ [("Dining_Table", table)])%list
  else if PyStr.contains "bathroom" (PyStr.lower room_type) then
    let toilet := mkMesh (cylinder 0.25 0.4)
                         (x + 0.5, y + 0.5, z + 0.2)
                         [255; 255; 255; 255]%Z in
    (furniture ++ [("Toilet", toilet)])%list
  else furniture.

(** [create_outdoor_plants(scene, max_x, max_y, z=0)]. *)
Definition create_outdoor_plants (scene : Scene) (max_x max_y : Q) (z : Q)
  : Scene :=
  let plant_positions :=
    [ (- 1.5, 2, "Tree_1");
      (- 1.5, max_y - 2, "Tree_2");
      (max_x + 1.5, 2, "Tree_3");
      (max_x + 1.5, max_y - 2, "Tree_4") ] in
  fold_left
    (fun scene '(px, py, name) =>
       let trunk := mkMesh (cylinder 0.15 1.5) (px, py, z + 0.75)
                           [101; 67; 33; 255]%Z in
       let scene := add_geometry scene trunk (name ++ "_trunk") in
       let foliage := mkMesh (cone 0.8 1.5) (px, py, z + 2.25)
                             [34; 139; 34; 255]%Z in
       add_geometry scene foliage (name ++ "_foliage"))
    plant_positions scene.

(** The vertical test of [create_internal_walls] (line 326): the right edge
    of [room1] is within 0.1 of the left edge of [room2] and the y-ranges are
    not separated. *)
Definition shares_vertical (room1 room2 : room) : bool :=
  let '(r1_x1, r1_y1) := (x room1, y room1) in
  let '(r1_x2, r1_y2) := (x room1 + w room1, y room1 + d room1) in
  let '(r2_x1, r2_y1) := (x room2, y room2) in
  let '(r2_x2, r2_y2) := (x room2 + w room2, y room2 + d room2) in
  PyNum.ltb (Qabs (r1_x2 - r2_x1)) 0.1 &&
  negb (PyNum.ltb r1_y2 r2_y1 || PyNum.ltb r2_y2 r1_y1).

(** The horizontal test (line 336): the top edge of [room1] is within 0.1 of
    the bottom edge of [room2] and the x-ranges are not separated. *)
Definition shares_horizontal (room1 room2 : room) : bool :=
  let '(r1_x1, r1_y1) := (x room1, y room1) in
  let '(r1_x2, r1_y2) := (x room1 + w room1, y room1 + d room1) in
  let '(r2_x1, r2_y1) := (x room2, y room2) in
  let '(r2_x2, r2_y2) := (x room2 + w room2, y room2 + d room2) in
  PyNum.ltb (Qabs (r1_y2 - r2_y1)) 0.1 &&
  negb (PyNum.ltb r1_x2 r2_x1 || PyNum.ltb r2_x2 r1_x1).

(** The body of the inner loop of [create_internal_walls] for the pair
    ([room1] at index [i], [room2] later in the list). *)
Definition wall_between (scene : Scene) (i : nat) (room1 room2 : room)
    (wall_thickness wall_height z : Q) : Scene :=
  let wall_color := [220; 220; 220; 255]%Z in
  let '(r1_x1, r1_y1) := (x room1, y room1) in
  let '(r1_x2, r1_y2) := (x room1 + w room1, y room1 + d room1) in
  let '(r2_x1, r2_y1) := (x room2, y room2) in
  let '(r2_x2, r2_y2) := (x room2 + w room2, y room2 + d room2) in
  if shares_vertical room1 room2 then
    let overlap_y1 := PyNum.max2 r1_y1 r2_y1 in
    let overlap_y2 := PyNum.min2 r1_y2 r2_y2 in
    if PyNum.gtb overlap_y2 overlap_y1 then
      let wall := mkMesh (box (wall_thickness, overlap_y2 - overlap_y1, wall_height))
                         (r1_x2, (overlap_y1 + overlap_y2) / 2, z + wall_height / 2)
                         wall_color in
      add_geometry scene wall
        ("Wall_internal_" ++ PyStr.of_nat i ++ "_" ++ PyStr.of_nat (i + 1))
    else scene
  else if shares_horizontal room1 room2 then
    let overlap_x1 := PyNum.max2 r1_x1 r2_x1 in
    let overlap_x2 := PyNum.min2 r1_x2 r2_x2 in
    if PyNum.gtb overlap_x2 overlap_x1 then
      let wall := mkMesh (box (overlap_x2 - overlap_x1, wall_thickness, wall_height))
                         ((overlap_x1 + overlap_x2) / 2, r1_y2, z + wall_height / 2)
                         wall_color in
      add_geometry scene wall
        ("Wall_internal_" ++ PyStr.of_nat i ++ "_" ++ PyStr.of_nat (i + 1) ++ "_h")
    else scene
  else scene.

(** The two nested loops: [for i, room1 in enumerate(rooms)] over
    [for room2 in rooms[i+1:]]; [rooms] is the part of the list from index
    [i] on. *)
Fixpoint internal_walls_from (scene : Scene) (i : nat) (rooms : list room)
    (wall_thickness wall_height z : Q) : Scene :=
  match rooms with
  | [] => scene
  | room1 :: rest =>
      let scene :=
        fold_left
          (fun scene room2 =>
             wall_between scene i room1 room2 wall_thickness wall_height z)
          rest scene in
      internal_walls_from scene (S i) rest wall_thickness wall_height z
  end.

(** [create_internal_walls(scene, rooms, wall_thickness=0.15, wall_height=3, z=0)]. *)
Definition create_internal_walls (scene : Scene) (rooms : list room)
    (wall_thickness wall_height z : Q) : Scene :=
  internal_walls_from scene 0 rooms wall_thickness wall_height z.

(** The room lists of the four branches (lines 355-392). *)
Definition rooms_1bhk : list room :=
  [ mkRoom "Living Room" 0 0 4 5 3 [150; 200; 150; 255]%Z;
    mkRoom "Bedroom" 4.5 0 4 4 3 [200; 150; 150; 255]%Z;
    mkRoom "Kitchen" 0 5.5 3 3 3 [150; 150; 200; 255]%Z;
    mkRoom "Bathroom" 4.5 4.5 2 2 3 [200; 200; 150; 255]%Z ].

Definition rooms_2bhk : list room :=
  [ mkRoom "Living Room" 0 0 5 4 3 [150; 200; 150; 255]%Z;
    mkRoom "Bedroom 1" 5.5 0 4 4 3 [200; 150; 150; 255]%Z;
    mkRoom "Bedroom 2" 10 0 3.5 4 3 [200; 150; 150; 255]%Z;
    mkRoom "Kitchen" 0 4.5 3 3.5 3 [150; 150; 200; 255]%Z;
    mkRoom "Bathroom" 3.5 4.5 2 2.5 3 [200; 200; 150; 255]%Z;
    mkRoom "Dining" 6 4.5 3 3 3 [180; 150; 200; 255]%Z ].

Definition rooms_3bhk : list room :=
  [ mkRoom "Living Room" 0 0 5 5 3 [150; 200; 150; 255]%Z;
    mkRoom "Bedroom 1" 5.5 0 4 4 3 [200; 150; 150; 255]%Z;
    mkRoom "Bedroom 2" 10 0 3.5 4 3 [200; 150; 150; 255]%Z;
    mkRoom "Bedroom 3" 0 5.5 3.5 4 3 [200; 150; 150; 255]%Z;
    mkRoom "Kitchen" 4 5.5 3 3 3 [150; 150; 200; 255]%Z;
    mkRoom "Bathroom 1" 7.5 5.5 2 2 3 [200; 200; 150; 255]%Z;
    mkRoom "Bathroom 2" 10 5.5 2 2 3 [200; 200; 150; 255]%Z;
    mkRoom "Dining" 4 9 3.5 3 3 [180; 150; 200; 255]%Z ].

Definition rooms_4bhk : list room :=
  [ mkRoom "Living Room" 0 0 6 5 3 [150; 200; 150; 255]%Z;
    mkRoom "Bedroom 1" 6.5 0 4 4.5 3 [200; 150; 150; 255]%Z;
    mkRoom "Bedroom 2" 11 0 4 4 3 [200; 150; 150; 255]%Z;
    mkRoom "Bedroom 3" 0 5.5 4 4 3 [200; 150; 150; 255]%Z;
    mkRoom "Bedroom 4" 4.5 5.5 3.5 4 3 [200; 150; 150; 255]%Z;
    mkRoom "Kitchen" 8.5 5.5 3.5 3 3 [150; 150; 200; 255]%Z;
    mkRoom "Bathroom 1" 12.5 5.5 2 2 3 [200; 200; 150; 255]%Z;
    mkRoom "Bathroom 2" 0 10 2 2 3 [200; 200; 150; 255]%Z;
    mkRoom "Dining" 2.5 10 4 3.5 3 [180; 150; 200; 255]%Z ].

(** The [if bhk == 1 ... elif bhk == 2 ... elif bhk == 3 ... else] chain of
    [generate_realistic_house_glb] (lines 354-392). *)
Definition house_rooms (bhk : Z) : list room :=
  if (bhk =? 1)%Z then rooms_1bhk
  else if (bhk =? 2)%Z then rooms_2bhk
  else if (bhk =? 3)%Z then rooms_3bhk
  else rooms_4bhk.

(** [generate_realistic_house_glb(bhk, sqft)]. *)
Definition generate_realistic_house_glb (bhk : Z) (sqft : Q) : Scene :=
  let scene := new_scene in
  let total_area_m2 := sqft * 0.092903 in
  let side_length := PyNum.np_sqrt total_area_m2 in
  let rooms := house_rooms bhk in
  let scene :=
    fold_left
      (fun scene room =>
         let room_floor :=
           mkMesh (box (w room, d room, 0.05))
                  (x room + w room / 2, y room + d room / 2, 0.025)
                  [245; 245; 220; 255]%Z in
         let scene := add_geometry scene room_floor (name room ++ "_floor") in
         let furniture_items :=
           create_furniture (name room) (x room) (y room) 0.05 (w room) (d room) in
         fold_left
           (fun scene '(furn_name, furn_mesh) =>
              add_geometry scene furn_mesh (name room ++ "_" ++ furn_name))
           furniture_items scene)
      rooms scene in
  let max_x := PyNum.max_list (map (fun r => x r + w r) rooms) in
  let max_y := PyNum.max_list (map (fun r => y r + d r) rooms) in
  let ground := mkMesh (box (max_x + 4, max_y + 4, 0.1))
                       (max_x / 2, max_y / 2, - 0.05)
                       [144; 238; 144; 255]%Z in
  let scene := add_geometry scene ground "Ground" in
  let wall_thickness := 0.25 in
  let wall_height := 3.5 in
  let wall_color := [210; 180; 140; 255]%Z in
  let north_wall := mkMesh (box (max_x + wall_thickness, wall_thickness, wall_height))
                           (max_x / 2, - wall_thickness / 2, wall_height / 2)
                           wall_color in
  let scene := add_geometry scene north_wall "Wall_North" in
  let south_wall := mkMesh (box (max_x + wall_thickness, wall_thickness, wall_height))
                           (max_x / 2, max_y + wall_thickness / 2, wall_height / 2)
                           wall_color in
  let scene := add_geometry scene south_wall "Wall_South" in
  let east_wall := mkMesh (box (wall_thickness, max_y, wall_height))
                          (- wall_thickness / 2, max_y / 2, wall_height / 2)
                          wall_color in
  let scene := add_geometry scene east_wall "Wall_East" in
  let west_wall := mkMesh (box (wall_thickness, max_y, wall_height))
                          (max_x + wall_thickness / 2, max_y / 2, wall_height / 2)
                          wall_color in
  let scene := add_geometry scene west_wall "Wall_West" in
  let scene := create_internal_walls scene rooms 0.15 wall_height 0 in
  let scene := create_outdoor_plants scene max_x max_y 0 in
  let driveway := mkMesh (box (2, max_y + 4, 0.08))
                         (- 2, max_y / 2, 0.04)
                         [128; 128; 128; 255]%Z in
  let scene := add_geometry scene driveway "Driveway" in
  scene.

End House.

(** ** Python values and exceptions *)

Module Py.

(** The exceptions the JSON path can meet. *)
Inductive exn : Type := AttributeError | TypeError | ValueError.

Inductive result (A : Type) : Type :=
| Ok (a : A)
| Raise (e : exn).
Arguments Ok {A} a.
Arguments Raise {A} e.

Definition bind {A B : Type} (c : result A) (k : A -> result B) : result B :=
  match c with
  | Ok a => k a
  | Raise e => Raise e
  end.

(** [try: body  except Exception: handler]. *)
Definition try_except {A : Type} (body : result A) (handler : exn -> result A)
  : result A :=
  match body with
  | Ok a => Ok a
  | Raise e => handler e
  end.

(** A [for] loop whose body may raise, threading the state it mutates. *)
Fixpoint for_each {A S : Type} (body : S -> A -> result S) (l : list A) (s : S)
  : result S :=
  match l with
  | [] => Ok s
  | a :: rest => bind (body s a) (for_each body rest)
  end.

(** A list comprehension whose element expression may raise. *)
Fixpoint comprehension {A B : Type} (f : A -> result B) (l : list A)
  : result (list B) :=
  match l with
  | [] => Ok []
  | a :: rest =>
      bind (f a) (fun b => bind (comprehension f rest) (fun bs => Ok (b :: bs)))
  end.

#[local] Set Warnings "-register-all".

(** What [json.loads] returns.  A dict is the list of its items; its keys are
    distinct, and [lookup] reads the first item with the key. *)
Inductive value : Type :=
| None_
| Bool (b : bool)
| Num (q : Q)
| Str (s : string)
| List_ (l : list value)
| Dict (items : list (string * value)).

Fixpoint lookup (key : string) (items : list (string * value)) : option value :=
  match items with
  | [] => None
  | (k, v) :: rest => if String.eqb k key then Some v else lookup key rest
  end.

(** [v.get(key, default)]: only a dict has the method. *)
Definition get (v : value) (key : string) (default : value) : result value :=
  match v with
  | Dict items =>
      Ok (match lookup key items with Some a => a | None => default end)
  | _ => Raise AttributeError
  end.

(** The number a value stands for in arithmetic ([bool] is an [int]). *)
Definition number_of (v : value) : option Q :=
  match v with
  | Num q => Some q
  | Bool true => Some 1
  | Bool false => Some 0
  | _ => None
  end.

(** [v / q] for a float [q]. *)
Definition truediv (v : value) (q : Q) : result Q :=
  match number_of v with
  | Some a => Ok (a / q)
  | None => Raise TypeError
  end.

(** [v + q] for a float [q]. *)
Definition add (v : value) (q : Q) : result Q :=
  match number_of v with
  | Some a => Ok (a + q)
  | None => Raise TypeError
  end.

(** A component of the list added to [mesh.vertices]: numpy accepts numbers
    and raises on anything else (a string, [None], a list, a dict). *)
Definition coordinate (v : value) : result Q :=
  match number_of v with
  | Some a => Ok a
  | None => Raise TypeError
  end.

(** [v.lower()]: only a string has the method. *)
Definition lower (v : value) : result string :=
  match v with
  | Str s => Ok (PyStr.lower s)
  | _ => Raise AttributeError
  end.

(** The node name [add_geometry] receives. *)
Definition node_name_of (v : value) : result string :=
  match v with
  | Str s => Ok s
  | _ => Raise TypeError
  end.

(** Truth value of an object in [if v:] and [v or w]. *)
Definition truthy (v : value) : bool :=
  match v with
  | None_ => false
  | Bool b => b
  | Num q => negb (Qeq_bool q 0)
  | Str s => negb (String.eqb s EmptyString)
  | List_ l => match l with [] => false | _ => true end
  | Dict items => match items with [] => false | _ => true end
  end.

Fixpoint chars (s : string) : list value :=
  match s with
  | EmptyString => []
  | String c t => Str (String c EmptyString) :: chars t
  end.

(** [for room in v]: a list gives its elements, a string its characters, a
    dict its keys; a number, a boolean and [None] are not iterable. *)
Definition iterate (v : value) : result (list value) :=
  match v with
  | List_ l => Ok l
  | Str s => Ok (chars s)
  | Dict items => Ok (map (fun kv => Str (fst kv)) items)
  | _ => Raise TypeError
  end.

End Py.

Import Py.

Notation "x <- c ;; k" := (Py.bind c (fun x => k))
  (at level 61, c at next level, right associativity).

(** ** The JSON-driven path (Path A) *)

Module Json.

Import House.

(** [room_colors] (lines 176-183), in insertion order. *)
Definition room_colors : list (string * rgba) :=
  [ ("bedroom", [200; 150; 150; 255]%Z);
    ("living", [150; 200; 150; 255]%Z);
    ("kitchen", [150; 150; 200; 255]%Z);
    ("bathroom", [200; 200; 150; 255]%Z);
    ("dining", [180; 150; 200; 255]%Z);
    ("default", [180; 180; 180; 255]%Z) ].

(** The colour loop (lines 204-208): the first key found in [room_type], or
    the default. *)
Definition color_for (room_type : string) : rgba :=
  match find (fun kc => PyStr.contains (fst kc) room_type) room_colors with
  | Some kc => snd kc
  | None => [180; 180; 180; 255]%Z
  end.

Definition default_dimensions : value :=
  Dict [("length", Num 10); ("width", Num 10); ("height", Num 10)].

Definition default_position : value :=
  Dict [("x", Num 0); ("y", Num 0); ("z", Num 0)].

(** The body of [for room in rooms] (lines 192-211). *)
Definition add_room (scene : Scene) (room : value) : result Scene :=
  dims <- get room "dimensions" default_dimensions ;;
  pos <- get room "position" default_position ;;
  length_v <- get dims "length" (Num 10) ;;
  length <- truediv length_v 3.28 ;;
  width_v <- get dims "width" (Num 10) ;;
  width <- truediv width_v 3.28 ;;
  height_v <- get dims "height" (Num 10) ;;
  height <- truediv height_v 3.28 ;;
  px_v <- get pos "x" (Num 0) ;;
  py_v <- get pos "y" (Num 0) ;;
  px <- coordinate px_v ;;
  py <- coordinate py_v ;;
  name_v <- get room "name" (Str EmptyString) ;;
  room_type <- lower name_v ;;
  let color := color_for room_type in
  let box_mesh := mkMesh (box (length, width, height)) (px, py, height / 2) color in
  node_v <- get room "name" (Str "room") ;;
  node_name <- node_name_of node_v ;;
  Ok (add_geometry scene box_mesh node_name).

(** One element of the comprehensions of lines 218-219:
    [r.get("position", {}).get(axis, 0) + r.get("dimensions", {}).get(side, 10)/3.28]. *)
Definition far_edge (axis side : string) (r : value) : result Q :=
  p <- get r "position" (Dict []) ;;
  a <- get p axis (Num 0) ;;
  dm <- get r "dimensions" (Dict []) ;;
  s <- get dm side (Num 10) ;;
  len <- truediv s 3.28 ;;
  add a len.

(** [l or [10]]. *)
Definition or_10 (l : list Q) : list Q :=
  match l with [] => [10] | _ => l end.

(** The [rooms] variable (lines 185-188). *)
Definition rooms_of (room_data : value) : value :=
  match room_data with
  | Dict items =>
      match lookup "rooms" items with
      | Some rooms => rooms
      | None => None_
      end
  | _ => None_
  end.

(** The [try] block of [generate_glb_from_json] (lines 173-230). *)
Definition generate_glb_from_json_try (room_data : value) (bhk : Z) (sqft : Q)
  : result Scene :=
  let scene := new_scene in
  let rooms := rooms_of room_data in
  if truthy rooms then
    items <- iterate rooms ;;
    scene <- for_each add_room items scene ;;
    items_x <- iterate (if truthy rooms then rooms else List_ []) ;;
    xs <- comprehension (far_edge "x" "length") items_x ;;
    let max_x := PyNum.max_list (or_10 xs) in
    items_y <- iterate (if truthy rooms then rooms else List_ []) ;;
    ys <- comprehension (far_edge "y" "width") items_y ;;
    let max_y := PyNum.max_list (or_10 ys) in
    let floor := mkMesh (box (max_x + 2, max_y + 2, 0.1))
                        (max_x / 2, max_y / 2, - 0.05)
                        [220; 220; 220; 255]%Z in
    let scene := add_geometry scene floor "floor" in
    Ok scene
  else
    let scene := generate_realistic_house_glb bhk sqft in
    Ok scene.

(** [generate_glb_from_json(room_data, bhk, sqft)]: the [try] block with its
    [except Exception] handler (lines 232-234). *)
Definition generate_glb_from_json (room_data : value) (bhk : Z) (sqft : Q)
  : result Scene :=
  try_except (generate_glb_from_json_try room_data bhk sqft)
             (fun _ => Ok (generate_realistic_house_glb bhk sqft)).

End Json.

(** ** The floor-plan renderer *)

Module Svg.

Import PyStr.

(** A room of the 2D templates of [generate_svg_floor_plan]. *)
Record room2d : Type := mkRoom2d {
  name : string;
  x : Z;
  y : Z;
  w : Z;
  h : Z
}.

Local Open Scope Z_scope.

Definition plan_1bhk : list room2d :=
  [ mkRoom2d "Living" 50 50 300 250;
    mkRoom2d "Bedroom" 400 50 300 250;
    mkRoom2d "Kitchen" 50 350 200 150;
    mkRoom2d "Bathroom" 300 350 150 150 ].

Definition plan_2bhk : list room2d :=
  [ mkRoom2d "Living" 50 50 250 200;
    mkRoom2d "Bedroom 1" 350 50 200 200;
    mkRoom2d "Bedroom 2" 600 50 200 200;
    mkRoom2d "Kitchen" 50 300 180 150;
    mkRoom2d "Bathroom" 280 300 150 150 ].

Definition plan_3bhk : list room2d :=
  [ mkRoom2d "Living" 50 50 220 180;
    mkRoom2d "Bedroom 1" 320 50 180 180;
    mkRoom2d "Bedroom 2" 550 50 180 180;
    mkRoom2d "Bedroom 3" 50 280 180 180;
    mkRoom2d "Kitchen" 280 280 150 130;
    mkRoom2d "Bath 1" 480 280 120 130 ].

Definition plan_4bhk : list room2d :=
  [ mkRoom2d "Living" 50 50 200 150;
    mkRoom2d "Dining" 300 50 150 150;
    mkRoom2d "BR 1" 500 50 150 150;
    mkRoom2d "BR 2" 700 50 150 150;
    mkRoom2d "BR 3" 50 250 150 150;
    mkRoom2d "Kitchen" 250 250 150 130 ].

(** The [if bhk == 1 ... else] chain of lines 466-498. *)
Definition plan_rooms (bhk : Z) : list room2d :=
  if bhk =? 1 then plan_1bhk
  else if bhk =? 2 then plan_2bhk
  else if bhk =? 3 then plan_3bhk
  else plan_4bhk.

(** The two f-strings appended for a room (lines 504-507). *)
Definition room_markup (room : room2d) : string :=
  let rect :=
    "<rect x=" ++ dq ++ of_Z (x room) ++ dq ++
    " y=" ++ dq ++ of_Z (y room) ++ dq ++
    " width=" ++ dq ++ of_Z (w room) ++ dq ++
    " height=" ++ dq ++ of_Z (h room) ++ dq ++
    " fill=" ++ dq ++ "white" ++ dq ++
    " stroke=" ++ dq ++ "#333" ++ dq ++
    " stroke-width=" ++ dq ++ "2" ++ dq ++ "/>" in
  let text_x := x room + w room / 2 in
  let text_y := y room + h room / 2 in
  let text :=
    "<text x=" ++ dq ++ of_Z text_x ++ dq ++
    " y=" ++ dq ++ of_Z text_y ++ dq ++
    " text-anchor=" ++ dq ++ "middle" ++ dq ++
    " font-size=" ++ dq ++ "14" ++ dq ++
    " fill=" ++ dq ++ "#333" ++ dq ++ ">" ++ name room ++ "</text>" in
  rect ++ text.

(** [generate_svg_floor_plan(bhk, sqft)]. *)
Definition generate_svg_floor_plan (bhk : Z) (sqft : Q) : string :=
  let width := 800 in
  let height := 600 in
  let rooms := plan_rooms bhk in
  let svg :=
    "<svg width=" ++ dq ++ of_Z width ++ dq ++
    " height=" ++ dq ++ of_Z height ++ dq ++
    " xmlns=" ++ dq ++ "http://www.w3.org/2000/svg" ++ dq ++ ">" in
  let svg :=
    svg ++ "<rect width=" ++ dq ++ "100%" ++ dq ++
    " height=" ++ dq ++ "100%" ++ dq ++
    " fill=" ++ dq ++ "#f5f5f5" ++ dq ++ "/>" in
  let svg := fold_left (fun svg room => svg ++ room_markup room) rooms svg in
  let svg := svg ++ "</svg>" in
  svg.

End Svg.

(** ** Notions used to state the properties *)

Module Spec.

Import House.

(** Area of the intersection of the footprints of two template rooms. *)
Definition overlap_area (r1 r2 : room) : Q :=
  let dx := PyNum.min2 (x r1 + w r1) (x r2 + w r2) - PyNum.max2 (x r1) (x r2) in
  let dy := PyNum.min2 (y r1 + d r1) (y r2 + d r2) - PyNum.max2 (y r1) (y r2) in
  PyNum.max2 0 dx * PyNum.max2 0 dy.


(** The walls [create_internal_walls] adds to an empty scene with the
    arguments of its call site (line 447). *)
Definition internal_walls (rooms : list room) : Scene :=
  create_internal_walls new_scene rooms 0.15 3.5 0.

(** Two rooms side by side: [west_room] on the left, [east_room] on its
    right, sharing the edge x = 4 over y in [0, 4]. *)
Definition west_room : room := mkRoom "A" 0 0 4 4 3 [200; 150; 150; 255]%Z.
Definition east_room : room := mkRoom "B" 4 0 4 4 3 [200; 150; 150; 255]%Z.

(** A room with two neighbours on its right, one above the other. *)
Definition east_room_low : room := mkRoom "B" 4 0 4 2 3 [200; 150; 150; 255]%Z.
Definition east_room_high : room := mkRoom "C" 4 2 4 2 3 [200; 150; 150; 255]%Z.

(** Classification of the node names of a template scene. *)
Definition is_floor (n : string) : bool := PyStr.endswith "_floor" n.
Definition is_trunk (n : string) : bool := PyStr.endswith "_trunk" n.
Definition is_foliage (n : string) : bool := PyStr.endswith "_foliage" n.
Definition is_internal_wall (n : string) : bool :=
  PyStr.startswith "Wall_internal_" n.
Definition is_perimeter_wall (n : string) : bool :=
  PyStr.startswith "Wall_" n && negb (is_internal_wall n).

Definition count_name (n : string) (scene : Scene) : nat :=
  List.length (filter (String.eqb n) (node_names scene)).

(** The bounding box corner the template path computes (lines 408-409). *)
Definition max_x (rooms : list room) : Q :=
  PyNum.max_list (map (fun r => x r + w r) rooms).
Definition max_y (rooms : list room) : Q :=
  PyNum.max_list (map (fun r => y r + d r) rooms).

(** The branch of the [if]/[elif] chain a room count takes. *)
Inductive category : Type := Cat1 | Cat2 | Cat3 | Cat4plus.

Definition category_of (bhk : Z) : category :=
  if (bhk =? 1)%Z then Cat1
  else if (bhk =? 2)%Z then Cat2
  else if (bhk =? 3)%Z then Cat3
  else Cat4plus.

(** A property of every pair of entries at distinct positions, as a check. *)
Definition all_distinct_pairs {A : Type} (test : A -> A -> bool) (l : list A)
  : bool :=
  forallb
    (fun i =>
       forallb
         (fun j =>
            (i =? j)%nat ||
            match nth_error l i, nth_error l j with
            | Some a, Some b => test a b
            | _, _ => true
            end)
         (seq 0 (List.length l)))
    (seq 0 (List.length l)).

End Spec.

Module JsonSpec.

Import Json.

Definition is_number (v : value) : bool :=
  match number_of v with Some _ => true | None => false end.

Definition is_dict (v : value) : bool :=
  match v with Dict _ => true | _ => false end.

Definition is_str (v : value) : bool :=
  match v with Str _ => true | _ => false end.

(** The value of a key of a dict, or a default when the key is absent. *)
Definition field (v : value) (key : string) (default : value) : value :=
  match v with
  | Dict items => match lookup key items with Some a => a | None => default end
  | _ => default
  end.

(** A room entry is well typed: it is a dict; its [dimensions] and
    [position], when present, are dicts; the lengths and coordinates that are
    present are numbers; its [name], when present, is a string.  Absent keys
    are allowed. *)
Definition well_typed_room (room : value) : bool :=
  let dims := field room "dimensions" default_dimensions in
  let pos := field room "position" default_position in
  is_dict room && is_dict dims && is_dict pos &&
  is_number (field dims "length" (Num 10)) &&
  is_number (field dims "width" (Num 10)) &&
  is_number (field dims "height" (Num 10)) &&
  is_number (field pos "x" (Num 0)) &&
  is_number (field pos "y" (Num 0)) &&
  is_str (field room "name" (Str EmptyString)).

(** A structured description Path A renders: its [rooms] is a non-empty list
    of well-typed room entries. *)
Definition renderable (room_data : value) : bool :=
  match rooms_of room_data with
  | List_ (room :: rest) => forallb well_typed_room (room :: rest)
  | _ => false
  end.

(** The room of the example in the prompt of
    [build_gemini_prompt_from_conversation] (lines 147-151). *)
Definition prompt_example : value :=
  Dict [("rooms",
         List_ [Dict [("name", Str "Master Bedroom");
                      ("dimensions",
                       Dict [("length", Num 14); ("width", Num 12);
                             ("height", Num 10)]);
                      ("position",
                       Dict [("x", Num 0); ("y", Num 0); ("z", Num 0)]);
                      ("features",
                       List_ [Str "attached_bathroom"; Str "balcony"])]])].



End JsonSpec.

(** ** The district table of [src/districts.py] *)

Module Districts.

(** [s.zfill(width)] for a string of digits. *)
Definition zfill (width : nat) (s : string) : string :=
  let n := String.length s in
  (fix pad (k : nat) : string :=
     match k with
     | O => s
     | S k' => String "0" (pad k')
     end) (width - n)%nat.

(** [range(a, b)]. *)
Definition range (a b : nat) : list nat := seq a (b - a).

(** One item of [TAMIL_NADU_DISTRICTS]: the district name, its
    [rate_range] and its [pincodes]. *)
Record district : Type := mkDistrict {
  district_name : string;
  rate_range : Z * Z;
  pincodes : list string
}.

(** [TAMIL_NADU_DISTRICTS], in insertion order. *)
Definition TAMIL_NADU_DISTRICTS : list district :=
  [ mkDistrict "Chennai" (5000, 25000)%Z
      (map (fun i => "6000" ++ zfill 2 (PyStr.of_nat i)) (range 1 101));
    mkDistrict "Chengalpattu" (1500, 6000)%Z
      ["603001"; "603002"; "603003"; "603101"; "603102"; "603103"; "603104";
       "603105"; "603201"; "603202"; "603203"; "603204"; "603313"];
    mkDistrict "Kanchipuram" (1200, 5000)%Z
      ["631501"; "631502"; "631551"; "631552"];
    mkDistrict "Tiruvallur" (1000, 4000)%Z
      ["602001"; "602002"; "602003"; "602025"; "602026"];
    mkDistrict "Coimbatore" (2000, 12000)%Z
      (map (fun i => "641" ++ zfill 3 (PyStr.of_nat i)) (range 1 63));
    mkDistrict "Erode" (800, 3000)%Z
      ["638001"; "638002"; "638003"; "638101"; "638102"; "638151"; "638316"];
    mkDistrict "Salem" (1000, 4000)%Z
      ["636001"; "636002"; "636003"; "636004"; "636005"; "636006"; "636007";
       "636008"; "636502"];
    mkDistrict "Madurai" (1200, 6000)%Z
      (map (fun i => "6250" ++ zfill 2 (PyStr.of_nat i)) (range 1 21));
    mkDistrict "Tiruchirappalli" (1000, 4000)%Z
      ["620001"; "620002"; "620003"; "620004"; "620005"; "621219"];
    mkDistrict "Thanjavur" (800, 2500)%Z
      ["613001"; "613002"; "613003"; "613004"; "613005"; "614206"];
    mkDistrict "Theni" (700, 2000)%Z
      ["625512"; "625513"; "625514"; "625547"];
    mkDistrict "Dindigul" (700, 2500)%Z
      ["624001"; "624002"; "624003"; "624710"];
    mkDistrict "Vellore" (1000, 4000)%Z
      ["632001"; "632002"; "632003"; "632004"; "632005"; "632014"];
    mkDistrict "Tirunelveli" (800, 2500)%Z
      ["627001"; "627002"; "627003"; "627862"];
    mkDistrict "Thoothukudi" (800, 3000)%Z
      ["628001"; "628002"; "628003"; "628907"];
    mkDistrict "Sivaganga" (600, 2000)%Z
      ["630001"; "630002"; "630611"];
    mkDistrict "Ramanathapuram" (600, 2000)%Z
      ["623001"; "623002"; "623703"];
    mkDistrict "Virudhunagar" (700, 2500)%Z
      ["626001"; "626002"; "626203"];
    mkDistrict "Namakkal" (800, 2500)%Z
      ["637001"; "637002"; "637505"];
    mkDistrict "Krishnagiri" (900, 3000)%Z
      ["635001"; "635002"; "635206"];
    mkDistrict "Dharmapuri" (800, 2500)%Z
      ["636701"; "636702"; "636813"];
    mkDistrict "Cuddalore" (800, 3000)%Z
      ["607001"; "607002"; "608907"];
    mkDistrict "Villupuram" (800, 2500)%Z
      ["605601"; "605602"; "606901"];
    mkDistrict "Nagapattinam" (700, 2000)%Z
      ["611001"; "611002"; "611108"];
    mkDistrict "Pudukkottai" (700, 2000)%Z
      ["622001"; "622002"; "622501"];
    mkDistrict "Perambalur" (600, 1800)%Z
      ["621212"; "621220"];
    mkDistrict "Ariyalur" (600, 1800)%Z
      ["621704"; "621802"];
    mkDistrict "Tiruvarur" (700, 2000)%Z
      ["610001"; "610002"; "610209"];
    mkDistrict "Nilgiris" (2000, 10000)%Z
      ["643001"; "643002"; "643243"];
    mkDistrict "Kallakurichi" (800, 2500)%Z
      ["606202"; "606308"];
    mkDistrict "Tiruppur" (1200, 6000)%Z
      ["641601"; "641602"; "641687"] ].

(** [pincode in data["pincodes"]]. *)
Definition listed (pincode : string) (data : district) : bool :=
  existsb (String.eqb pincode) (pincodes data).

(** The loop of [get_rate_for_pincode] over the items from [table] on: the
    first district that lists the pincode gives [int((min + max) / 2)], the
    true division followed by the truncation of [int]; without one the
    result is 1500. *)
Fixpoint rate_in (table : list district) (pincode : string) : Z :=
  match table with
  | [] => 1500
  | data :: rest =>
      if listed pincode data then
        let '(min_rate, max_rate) := rate_range data in
        Z.quot (min_rate + max_rate) 2
      else rate_in rest pincode
  end.

(** [get_rate_for_pincode(pincode)]. *)
Definition get_rate_for_pincode (pincode : string) : Z :=
  rate_in TAMIL_NADU_DISTRICTS pincode.

(** The loop of [get_district_for_pincode]. *)
Fixpoint district_in (table : list district) (pincode : string) : string :=
  match table with
  | [] => "Unknown"
  | data :: rest =>
      if listed pincode data then district_name data
      else district_in rest pincode
  end.

(** [get_district_for_pincode(pincode)]. *)
Definition get_district_for_pincode (pincode : string) : string :=
  district_in TAMIL_NADU_DISTRICTS pincode.

(** [PINCODE_RATES] of [src/app.py] (lines 33-39). *)
Definition PINCODE_RATES : list (string * Z) :=
  [ ("600001", 1800); ("600002", 1750); ("600003", 1700);
    ("641001", 1500); ("641002", 1480); ("641035", 1500);
    ("620001", 1400); ("620002", 1380); ("620003", 1350);
    ("636001", 1300); ("636002", 1280); ("636003", 1250);
    ("630001", 1200); ("630002", 1180); ("630003", 1150) ]%Z.

(** [PINCODE_RATES.get(pincode, default)]. *)
Fixpoint rates_get (table : list (string * Z)) (pincode : string) (default : Z)
  : Z :=
  match table with
  | [] => default
  | (k, v) :: rest => if String.eqb k pincode then v else rates_get rest pincode default
  end.

(** The rate lookup of [init_chat] (lines 628-631) and [calculate_rate]
    (lines 543-547): the district module when it was imported, the fallback
    table otherwise. *)
Definition lookup_rate (HAS_DISTRICTS_MODULE : bool) (pincode : string) : Z :=
  if HAS_DISTRICTS_MODULE then get_rate_for_pincode pincode
  else rates_get PINCODE_RATES pincode 1500.

(** Every pincode the district table lists. *)
Definition all_pincodes : list string :=
  flat_map pincodes TAMIL_NADU_DISTRICTS.

End Districts.

(** ** Notions used for the furniture, walls and landscaping *)

Module Placement.

(** The footprint of a mesh lies in the rectangle [x, x + w] by [y, y + d]. *)
Definition within (x y w d : Q) (m : Trimesh) : Prop :=
  x <= x_min m /\ x_max m <= x + w /\ y <= y_min m /\ y_max m <= y + d.

Definition withinb (x y w d : Q) (m : Trimesh) : bool :=
  Qle_bool x (x_min m) && Qle_bool (x_max m) (x + w) &&
  Qle_bool y (y_min m) && Qle_bool (y_max m) (y + d).


(** The furniture [generate_realistic_house_glb] asks for a template room
    (line 403). *)
Definition room_furniture (r : House.room) : list (string * Trimesh) :=
  House.create_furniture (House.name r) (House.x r) (House.y r) 0.05
                         (House.w r) (House.d r).

End Placement.

Module SceneSpec.

(** No string occurs twice in a list, as a check. *)
Fixpoint nodupb (l : list string) : bool :=
  match l with
  | [] => true
  | s :: rest => negb (existsb (String.eqb s) rest) && nodupb rest
  end.

(** The tree crowns and the driveway, by node name. *)
Definition crown_or_driveway (n : string) : bool :=
  Spec.is_foliage n || String.eqb n "Driveway".


End SceneSpec.

Module WallSpec.

Import House.


End WallSpec.

Module PathASpec.

Import Json JsonSpec.



End PathASpec.

Module PathAExamples.

Import Json JsonSpec.



End PathAExamples.

Module SvgSpec.

Import Svg.

Local Open Scope Z_scope.

(** Number of places of a string where a given string starts. *)
Fixpoint count_occurrences (needle hay : string) : nat :=
  match hay with
  | EmptyString => if String.prefix needle hay then 1%nat else 0%nat
  | String _ t =>
      ((if String.prefix needle hay then 1 else 0) + count_occurrences needle t)%nat
  end.

(** The rectangle of a room lies on the 800 by 600 canvas. *)
Definition on_canvas (r : room2d) : bool :=
  (0 <=? x r) && (x r + w r <=? 800) && (0 <=? y r) && (y r + h r <=? 600).

(** The interiors of the rectangles of two rooms meet. *)
Definition rects_overlap (r1 r2 : room2d) : bool :=
  (x r1 <? x r2 + w r2) && (x r2 <? x r1 + w r1) &&
  (y r1 <? y r2 + h r2) && (y r2 <? y r1 + h r1).

End SvgSpec.

(** ** The chat flow *)

Module Chat.

(** An entry of [chat_history]: [{"role": ..., "content": ...}]. *)
Record message : Type := mkMessage {
  role : string;
  content : string
}.

(** [SMART_CHIPS] (lines 42-67). *)
Definition chips_initial : list string :=
  [ "Modern minimalist design"; "Traditional Tamil Nadu style";
    "Open kitchen layout"; "Vastu-compliant design"; "Add a pooja room";
    "Include a balcony" ].

Definition chips_rooms : list string :=
  [ "Master bedroom with attached bathroom";
    "Walk-in closet in master bedroom"; "Large living room";
    "Separate dining area"; "Modular kitchen"; "Study room / home office" ].

Definition chips_features : list string :=
  [ "Natural lighting focus"; "Cross ventilation";
    "Rainwater harvesting setup"; "Solar panel ready"; "Garden space";
    "Car parking area" ].

(** The JSON object [chat] returns. *)
Record reply : Type := mkReply {
  response : string;
  smart_chips : list string;
  ready_to_generate : bool
}.

(** [chat()] (lines 561-614) on the chat history of the session and the
    message of the request.  The remote call [call_openrouter] and the
    system prompt built from the session parameters are arguments; the
    result is the history written back to the session and the reply. *)
Definition chat (call_openrouter : list message -> string)
    (system_prompt : string) (chat_history : list message)
    (user_message : string) : list message * reply :=
  let chat_history := (chat_history ++ [mkMessage "user" user_message])%list in
  let messages := (mkMessage "system" system_prompt :: chat_history)%list in
  let bot_response := call_openrouter messages in
  let chat_history :=
    (chat_history ++ [mkMessage "assistant" bot_response])%list in
  let chips :=
    if (4 <? List.length chat_history)%nat then chips_features
    else if (2 <? List.length chat_history)%nat then chips_rooms
    else chips_initial in
  let ready_to_generate :=
    PyStr.contains "ready to generate" (PyStr.lower bot_response) ||
    (8 <? List.length chat_history)%nat in
  (chat_history, mkReply bot_response chips ready_to_generate).

(** The chat history [init_chat] leaves in the session (lines 646-656): the
    one initial message of the assistant. *)
Definition init_chat_history (initial_message : string) : list message :=
  ([] ++ [mkMessage "assistant" initial_message])%list.

(** A conversation: [chat] called once per user message, each call on the
    history the previous one wrote back; the reply is that of the last call. *)
Fixpoint converse (call_openrouter : list message -> string)
    (system_prompt : string) (chat_history : list message)
    (user_messages : list string) (last : option reply)
  : list message * option reply :=
  match user_messages with
  | [] => (chat_history, last)
  | m :: rest =>
      let '(chat_history, r) :=
        chat call_openrouter system_prompt chat_history m in
      converse call_openrouter system_prompt chat_history rest (Some r)
  end.

(** The roles of a history alternate, starting with the given one. *)
Fixpoint alternates (first : bool) (history : list message) : bool :=
  match history with
  | [] => true
  | m :: rest =>
      String.eqb (role m) (if first then "assistant" else "user") &&
      alternates (negb first) rest
  end.

End Chat.

(** ** The prompt builder *)

Module Prompt.

Import PyStr Chat.

(** The newline character. *)
Definition nl : string := String (ascii_of_nat 10) EmptyString.

(** [l[-n:]] for a positive [n]: the last [n] entries, or all of a shorter
    list. *)
Definition last_n {A : Type} (n : nat) (l : list A) : list A :=
  skipn (List.length l - n) l.

(** [sep.join(l)]. *)
Fixpoint join (sep : string) (l : list string) : string :=
  match l with
  | [] => EmptyString
  | [s] => s
  | s :: rest => s ++ sep ++ join sep rest
  end.

(** [build_gemini_prompt_from_conversation(bhk, sqft, facing, style,
    chat_history)] (lines 123-168). *)
Definition build_gemini_prompt_from_conversation (bhk sqft : Z)
    (facing style : string) (chat_history : list message) : string :=
  let conversation_summary :=
    join nl (map (fun msg => role msg ++ ": " ++ content msg)
                 (last_n 6 chat_history)) in
  let prompt :=
    "Generate a detailed 3D house plan specification in JSON format." ++ nl ++
    nl ++
    "USER REQUIREMENTS:" ++ nl ++
    "- BHK: " ++ of_Z bhk ++ nl ++
    "- Total Area: " ++ of_Z sqft ++ " sq ft" ++ nl ++
    "- Facing: " ++ facing ++ nl ++
    "- Style: " ++ style ++ nl ++
    nl ++
    "CONVERSATION CONTEXT:" ++ nl ++
    conversation_summary ++ nl ++
    nl ++
    "Generate a JSON structure with:" ++ nl ++
    "{" ++ nl ++
    "  " ++ dq ++ "rooms" ++ dq ++ ": [" ++ nl ++
    "    {" ++ nl ++
    "      " ++ dq ++ "name" ++ dq ++ ": " ++ dq ++ "Master Bedroom" ++ dq ++ "," ++ nl ++
    "      " ++ dq ++ "dimensions" ++ dq ++ ": {" ++ dq ++ "length" ++ dq ++ ": 14, " ++ dq ++ "width" ++ dq ++ ": 12, " ++ dq ++ "height" ++ dq ++ ": 10}," ++ nl ++
    "      " ++ dq ++ "position" ++ dq ++ ": {" ++ dq ++ "x" ++ dq ++ ": 0, " ++ dq ++ "y" ++ dq ++ ": 0, " ++ dq ++ "z" ++ dq ++ ": 0}," ++ nl ++
    "      " ++ dq ++ "features" ++ dq ++ ": [" ++ dq ++ "attached_bathroom" ++ dq ++ ", " ++ dq ++ "balcony" ++ dq ++ "]" ++ nl ++
    "    }," ++ nl ++
    "    ..." ++ nl ++
    "  ]," ++ nl ++
    "  " ++ dq ++ "vastu_compliance" ++ dq ++ ": " ++ dq ++ "..." ++ dq ++ "," ++ nl ++
    "  " ++ dq ++ "materials" ++ dq ++ ": [...]," ++ nl ++
    "  " ++ dq ++ "cost_breakdown" ++ dq ++ ": {...}" ++ nl ++
    "}" ++ nl ++
    nl ++
    "Consider:" ++ nl ++
    "1. Room proportions for " ++ of_Z bhk ++ " BHK" ++ nl ++
    "2. " ++ facing ++ " facing Vastu principles" ++ nl ++
    "3. User preferences from conversation" ++ nl ++
    "4. " ++ style ++ " architectural style" ++ nl ++
    "5. Tamil Nadu climate considerations" ++ nl ++
    nl ++
    "Return ONLY valid JSON, no explanations." in
  prompt.

End Prompt.

Module Final.

Import Json.

(** The choice of the scene in [generate_final] (lines 695-703): the parsed
    plan goes to the JSON-driven builder when it is truthy, and the template
    scene is built directly otherwise. *)
Definition generate_final_glb (plan_json : value) (bhk : Z) (sqft : Q)
  : result Scene :=
  if truthy plan_json then generate_glb_from_json plan_json bhk sqft
  else
    let glb_scene := House.generate_realistic_house_glb bhk sqft in
    Ok glb_scene.

End Final.

(** * Properties *)

(** ** Numbers *)

Import PyNum.









(** ** Template selection *)

Import House Spec.

(** Case analysis on the [if]/[elif] chain of the template selection. *)
Lemma house_rooms_cases (bhk : Z) :
  (bhk = 1%Z /\ house_rooms bhk = rooms_1bhk) \/
  (bhk = 2%Z /\ house_rooms bhk = rooms_2bhk) \/
  (bhk = 3%Z /\ house_rooms bhk = rooms_3bhk) \/
  (bhk <> 1%Z /\ bhk <> 2%Z /\ bhk <> 3%Z /\ house_rooms bhk = rooms_4bhk).
Proof.
  unfold house_rooms.
  destruct (Z.eqb_spec bhk 1); [left; auto|].
  destruct (Z.eqb_spec bhk 2); [right; left; auto|].
  destruct (Z.eqb_spec bhk 3); [right; right; left; auto|].
  right; right; right; auto.
Qed.

Lemma plan_rooms_cases (bhk : Z) :
  (bhk = 1%Z /\ Svg.plan_rooms bhk = Svg.plan_1bhk) \/
  (bhk = 2%Z /\ Svg.plan_rooms bhk = Svg.plan_2bhk) \/
  (bhk = 3%Z /\ Svg.plan_rooms bhk = Svg.plan_3bhk) \/
  (bhk <> 1%Z /\ bhk <> 2%Z /\ bhk <> 3%Z /\ Svg.plan_rooms bhk = Svg.plan_4bhk).
Proof.
  unfold Svg.plan_rooms.
  destruct (Z.eqb_spec bhk 1); [left; auto|].
  destruct (Z.eqb_spec bhk 2); [right; left; auto|].
  destruct (Z.eqb_spec bhk 3); [right; right; left; auto|].
  right; right; right; auto.
Qed.


(** C2, as stated, fails: the room count 0 (and -1) takes the [else] branch,
    whose rooms are those of the 4-BHK template, in the scene builder and in
    the floor-plan renderer alike. *)
Lemma room_count_zero_selects_4bhk :
  (0 <= 1)%Z /\
  house_rooms 0 = rooms_4bhk /\ house_rooms 0 <> rooms_1bhk /\
  house_rooms (-1) = rooms_4bhk /\
  Svg.plan_rooms 0 = Svg.plan_4bhk /\ Svg.plan_rooms 0 <> Svg.plan_1bhk.
Proof.
  split; [lia|].
  repeat split; try reflexivity; intros E; vm_compute in E; discriminate E.
Qed.

(** C2 (amended): the layout selection is total on the integers; room counts
    1, 2 and 3 select their own templates and every other integer, that is
    every count at least 4 and every count at most 0, selects the 4-plus
    template.  The scene builder and the floor-plan renderer select alike. *)
Theorem layout_selection_total (bhk : Z) :
  (bhk = 1%Z -> house_rooms bhk = rooms_1bhk /\ Svg.plan_rooms bhk = Svg.plan_1bhk) /\
  (bhk = 2%Z -> house_rooms bhk = rooms_2bhk /\ Svg.plan_rooms bhk = Svg.plan_2bhk) /\
  (bhk = 3%Z -> house_rooms bhk = rooms_3bhk /\ Svg.plan_rooms bhk = Svg.plan_3bhk) /\
  ((4 <= bhk)%Z \/ (bhk <= 0)%Z ->
   house_rooms bhk = rooms_4bhk /\ Svg.plan_rooms bhk = Svg.plan_4bhk) /\
  In (house_rooms bhk) [rooms_1bhk; rooms_2bhk; rooms_3bhk; rooms_4bhk] /\
  In (Svg.plan_rooms bhk) [Svg.plan_1bhk; Svg.plan_2bhk; Svg.plan_3bhk; Svg.plan_4bhk].
Proof.
  split; [intros ->; split; reflexivity|].
  split; [intros ->; split; reflexivity|].
  split; [intros ->; split; reflexivity|].
  split; [|split].
  - intros H. split.
    + destruct (house_rooms_cases bhk) as [[? E]|[[? E]|[[? E]|(_ & _ & _ & E)]]];
        solve [lia | exact E].
    + destruct (plan_rooms_cases bhk) as [[? E]|[[? E]|[[? E]|(_ & _ & _ & E)]]];
        solve [lia | exact E].
  - destruct (house_rooms_cases bhk) as [[_ E]|[[_ E]|[[_ E]|(_ & _ & _ & E)]]];
      rewrite E; simpl; auto.
  - destruct (plan_rooms_cases bhk) as [[_ E]|[[_ E]|[[_ E]|(_ & _ & _ & E)]]];
      rewrite E; simpl; auto.
Qed.

Lemma layout_selection_total_witness :
  (house_rooms 1 = rooms_1bhk /\ Svg.plan_rooms 1 = Svg.plan_1bhk) /\
  (house_rooms 7 = rooms_4bhk /\ Svg.plan_rooms 7 = Svg.plan_4bhk) /\
  (house_rooms (-2) = rooms_4bhk /\ Svg.plan_rooms (-2) = Svg.plan_4bhk).
Proof.
  split; [|split].
  - apply (proj1 (layout_selection_total 1)). reflexivity.
  - apply (proj1 (proj2 (proj2 (proj2 (layout_selection_total 7))))). left. lia.
  - apply (proj1 (proj2 (proj2 (proj2 (layout_selection_total (-2)))))). right. lia.
Defined.


(** ** Geometry of the templates *)

(** The check [all_distinct_pairs] is sound for the pairs at distinct
    positions of a list. *)
Lemma all_distinct_pairs_sound {A : Type} (test : A -> A -> bool) (l : list A) :
  all_distinct_pairs test l = true ->
  forall i j a b,
    i <> j -> nth_error l i = Some a -> nth_error l j = Some b ->
    test a b = true.
Proof.
  unfold all_distinct_pairs. intros Hall i j a b Hij Hi Hj.
  rewrite forallb_forall in Hall.
  assert (Hi' : (i < List.length l)%nat)
    by (apply nth_error_Some; rewrite Hi; discriminate).
  assert (Hj' : (j < List.length l)%nat)
    by (apply nth_error_Some; rewrite Hj; discriminate).
  specialize (Hall i). rewrite forallb_forall in Hall.
  assert (Hin : forall k, (k < List.length l)%nat -> In k (seq 0 (List.length l))).
  { intros k Hk. apply in_seq. lia. }
  specialize (Hall (Hin i Hi') j (Hin j Hj')).
  rewrite Hi, Hj in Hall.
  apply Bool.orb_true_iff in Hall. destruct Hall as [Heq|Ht]; [|exact Ht].
  apply Nat.eqb_eq in Heq. contradiction.
Qed.


(** Replaces the selected template by each of the four concrete lists. *)
Ltac by_template bhk :=
  destruct (house_rooms_cases bhk) as [[_ E]|[[_ E]|[[_ E]|(_ & _ & _ & E)]]];
  rewrite E; clear E.

(** C6: for every room count the selected template is a non-empty list of
    rooms of positive width and depth, and any two rooms at distinct
    positions of it have footprints whose intersection has area zero. *)
Theorem templates_nonempty_disjoint (bhk : Z) :
  house_rooms bhk <> [] /\
  Forall (fun r => 0 < w r /\ 0 < d r) (house_rooms bhk) /\
  forall i j r1 r2,
    i <> j ->
    nth_error (house_rooms bhk) i = Some r1 ->
    nth_error (house_rooms bhk) j = Some r2 ->
    overlap_area r1 r2 == 0.
Proof.
  split; [|split].
  - by_template bhk; discriminate.
  - by_template bhk; repeat (constructor; [split; reflexivity|]); constructor.
  - intros i j r1 r2 Hij H1 H2.
    apply Qeq_bool_iff.
    apply (all_distinct_pairs_sound
             (fun a b => Qeq_bool (overlap_area a b) 0) (house_rooms bhk))
      with (i := i) (j := j); trivial.
    by_template bhk; vm_compute; reflexivity.
Qed.

Lemma templates_nonempty_disjoint_witness :
  overlap_area (mkRoom "Living Room" 0 0 5 4 3 [150; 200; 150; 255]%Z)
               (mkRoom "Bedroom 1" 5.5 0 4 4 3 [200; 150; 150; 255]%Z) == 0.
Proof.
  apply (proj2 (proj2 (templates_nonempty_disjoint 2)) 0%nat 1%nat).
  - discriminate.
  - reflexivity.
  - reflexivity.
Defined.






(** ** The template scene *)

(** C5: the scene built for room count 2 without structured rooms has
    exactly the six floor nodes of the template, exactly four perimeter wall
    nodes, four tree-trunk and four tree-foliage nodes, one "Ground" and one
    "Driveway" node; the JSON-driven builder returns that scene when it is
    given no structured description. *)
Theorem scene_2bhk_nodes :
  let scene := generate_realistic_house_glb 2 1000 in
  let names := node_names scene in
  Json.generate_glb_from_json None_ 2 1000 = Ok scene /\
  filter is_floor names =
    ["Living Room_floor"; "Bedroom 1_floor"; "Bedroom 2_floor";
     "Kitchen_floor"; "Bathroom_floor"; "Dining_floor"] /\
  filter is_perimeter_wall names =
    ["Wall_North"; "Wall_South"; "Wall_East"; "Wall_West"] /\
  filter is_trunk names =
    ["Tree_1_trunk"; "Tree_2_trunk"; "Tree_3_trunk"; "Tree_4_trunk"] /\
  filter is_foliage names =
    ["Tree_1_foliage"; "Tree_2_foliage"; "Tree_3_foliage"; "Tree_4_foliage"] /\
  count_name "Ground" scene = 1%nat /\
  count_name "Driveway" scene = 1%nat /\
  filter is_internal_wall names = [].
Proof.
  cbv zeta. repeat split; vm_compute; reflexivity.
Qed.

(** The rooms of every template lie in the box (0,0)-(max_x,max_y). *)
Lemma template_bounding_box (bhk : Z) :
  Forall (fun r => 0 <= x r /\ x r + w r <= max_x (house_rooms bhk) /\
                   0 <= y r /\ y r + d r <= max_y (house_rooms bhk))
         (house_rooms bhk).
Proof.
  by_template bhk;
    repeat (constructor; [repeat split; vm_compute; discriminate|]); constructor.
Qed.

(** C8: for every room count the template scene has exactly four perimeter
    wall nodes, north, south, east and west; each is a box of height 3.5 and
    thickness 0.25, lying against the outside of the bounding box
    (0,0)-(max_x,max_y) of the rooms: the north wall ends at y = 0, the south
    wall starts at y = max_y, the east wall ends at x = 0, the west wall
    starts at x = max_x, and each runs along the whole side. *)
Theorem perimeter_walls_flush (bhk : Z) (sqft : Q) :
  exists north south east west : Trimesh,
    filter (fun nd => is_perimeter_wall (fst nd))
           (generate_realistic_house_glb bhk sqft) =
      [("Wall_North", north); ("Wall_South", south);
       ("Wall_East", east); ("Wall_West", west)] /\
    Forall (fun m => exists ex ey ez, geom m = box (ex, ey, ez))
           [north; south; east; west] /\
    Forall (fun m => z_extent m == 3.5 /\ cz m - z_extent m / 2 == 0)
           [north; south; east; west] /\
    (y_extent north == 0.25 /\ y_max north == 0 /\
     x_min north <= 0 /\ max_x (house_rooms bhk) <= x_max north) /\
    (y_extent south == 0.25 /\ y_min south == max_y (house_rooms bhk) /\
     x_min south <= 0 /\ max_x (house_rooms bhk) <= x_max south) /\
    (x_extent east == 0.25 /\ x_max east == 0 /\
     y_min east == 0 /\ y_max east == max_y (house_rooms bhk)) /\
    (x_extent west == 0.25 /\ x_min west == max_x (house_rooms bhk) /\
     y_min west == 0 /\ y_max west == max_y (house_rooms bhk)).
Proof.
  unfold generate_realistic_house_glb. cbv zeta.
  by_template bhk;
    do 4 eexists;
    (split; [vm_compute; reflexivity|]);
    (split; [repeat (constructor; [do 3 eexists; reflexivity|]); constructor|]);
    (split; [repeat (constructor; [split; vm_compute; reflexivity|]); constructor|]);
    repeat split; vm_compute; solve [reflexivity | discriminate].
Qed.


(** ** The floor-plan renderer *)

(** Rooms counts of the same branch draw the same rooms. *)
Lemma plan_rooms_by_category (bhk1 bhk2 : Z) :
  category_of bhk1 = category_of bhk2 -> Svg.plan_rooms bhk1 = Svg.plan_rooms bhk2.
Proof.
  unfold category_of, Svg.plan_rooms.
  destruct (bhk1 =? 1)%Z, (bhk2 =? 1)%Z, (bhk1 =? 2)%Z, (bhk2 =? 2)%Z,
           (bhk1 =? 3)%Z, (bhk2 =? 3)%Z; intros H; try discriminate H; reflexivity.
Qed.

(** C9: the floor-plan markup is a function of the room-count category
    alone: two calls whose room counts fall in the same category return the
    same string, whatever their area arguments, and the string opens an
    800 by 600 canvas. *)
Theorem floor_plan_deterministic (bhk1 bhk2 : Z) (sqft1 sqft2 : Q) :
  category_of bhk1 = category_of bhk2 ->
  Svg.generate_svg_floor_plan bhk1 sqft1 = Svg.generate_svg_floor_plan bhk2 sqft2 /\
  PyStr.startswith
    ("<svg width=" ++ PyStr.dq ++ "800" ++ PyStr.dq ++
     " height=" ++ PyStr.dq ++ "600" ++ PyStr.dq ++ " ")
    (Svg.generate_svg_floor_plan bhk1 sqft1) = true.
Proof.
  intros H. split.
  - unfold Svg.generate_svg_floor_plan. cbv zeta.
    rewrite (plan_rooms_by_category bhk1 bhk2 H). reflexivity.
  - unfold Svg.generate_svg_floor_plan. cbv zeta.
    destruct (plan_rooms_cases bhk1) as [[_ E]|[[_ E]|[[_ E]|(_ & _ & _ & E)]]];
      rewrite E; vm_compute; reflexivity.
Qed.

Lemma floor_plan_deterministic_witness :
  Svg.generate_svg_floor_plan 4 1000 = Svg.generate_svg_floor_plan 7 2400.
Proof.
  apply (proj1 (floor_plan_deterministic 4 7 1000 2400 eq_refl)).
Defined.

(** ** Internal walls *)

(** C3 fails on the code: the detection depends on the order of the list.
    With the left room first the shared edge is found and one wall is
    emitted over the overlap; with the right room first neither test holds
    and no wall is emitted. *)
Theorem internal_walls_depend_on_order :
  internal_walls [west_room; east_room] =
    [("Wall_internal_0_1",
      mkMesh (box (0.15, 4 - 0, 3.5)) (0 + 4, (0 + 4) / 2, 0 + 3.5 / 2)
             [220; 220; 220; 255]%Z)] /\
  internal_walls [east_room; west_room] = [] /\
  shares_vertical west_room east_room = true /\
  shares_vertical east_room west_room = false /\
  shares_horizontal east_room west_room = false.
Proof.
  repeat split; vm_compute; reflexivity.
Qed.

(** The node name is built from [i] and [i + 1], not from the index of the
    second room: the walls of one room against two later rooms get the same
    name. *)
Lemma internal_wall_names_repeat :
  node_names (internal_walls [west_room; east_room_low; east_room_high]) =
    ["Wall_internal_0_1"; "Wall_internal_0_1"; "Wall_internal_1_2_h"].
Proof. vm_compute. reflexivity. Qed.

(** Each pair of positions is visited once and adds at most one wall. *)
Lemma wall_between_adds_at_most_one (scene : Scene) (i : nat) (r1 r2 : room)
    (t hgt z : Q) :
  wall_between scene i r1 r2 t hgt z = scene \/
  exists nd, wall_between scene i r1 r2 t hgt z = (scene ++ [nd])%list.
Proof.
  unfold wall_between, add_geometry.
  destruct (shares_vertical r1 r2).
  - destruct (gtb _ _); [right; eexists; reflexivity|left; reflexivity].
  - destruct (shares_horizontal r1 r2); [|left; reflexivity].
    destruct (gtb _ _); [right; eexists; reflexivity|left; reflexivity].
Qed.

(** ** The JSON-driven path *)

Import Json JsonSpec.

(** The loop body raises exactly on the entries that are not well typed. *)
Lemma add_room_ok (scene : Scene) (room : value) :
  well_typed_room room = true -> exists scene', add_room scene room = Ok scene'.
Proof.
  unfold well_typed_room, add_room, field, is_dict, is_number, is_str.
  destruct room as [| | | | |items]; simpl; try discriminate.
  destruct (lookup "dimensions" items) as [dims|]; simpl;
    [destruct dims as [| | | | |ditems]; simpl; try discriminate|];
    (destruct (lookup "position" items) as [pos|]; simpl;
     [destruct pos as [| | | | |pitems]; simpl; try discriminate|]);
    unfold truediv, coordinate, lower, node_name_of; simpl;
    repeat match goal with
           | |- context [number_of ?v] => destruct (number_of v); simpl; try discriminate
           end;
    destruct (lookup "name" items) as [nm|]; simpl;
    try (destruct nm; simpl; try discriminate);
    intros _; eexists; reflexivity.
Qed.

Lemma add_room_raises (scene : Scene) (room : value) :
  well_typed_room room = false -> exists e, add_room scene room = Raise e.
Proof.
  unfold well_typed_room, add_room, field, is_dict, is_number, is_str.
  destruct room as [| | | | |items]; simpl; try (intros _; eexists; reflexivity).
  destruct (lookup "dimensions" items) as [dims|]; simpl;
    [destruct dims as [| | | | |ditems]; simpl;
     try (intros _; eexists; reflexivity)|];
    (destruct (lookup "position" items) as [pos|]; simpl;
     [destruct pos as [| | | | |pitems]; simpl;
      try (intros _; eexists; reflexivity)|]);
    unfold truediv, coordinate, lower, node_name_of; simpl;
    repeat match goal with
           | |- context [number_of ?v] =>
               destruct (number_of v); simpl; try (intros _; eexists; reflexivity)
           end;
    destruct (lookup "name" items) as [nm|]; simpl;
    try (destruct nm; simpl);
    intros H; solve [discriminate H | eexists; reflexivity].
Qed.


Lemma rooms_loop_raises (rooms : list value) :
  forallb well_typed_room rooms = false ->
  forall scene, exists e, for_each add_room rooms scene = Raise e.
Proof.
  induction rooms as [|room rest IH]; intros Hall scene; simpl.
  - discriminate Hall.
  - simpl in Hall. destruct (well_typed_room room) eqn:Hroom.
    + destruct (add_room_ok scene room Hroom) as [scene1 E1]. rewrite E1. simpl.
      apply IH, Hall.
    + destruct (add_room_raises scene room Hroom) as [e E1]. rewrite E1. simpl.
      eexists; reflexivity.
Qed.

(** A string or a dict in place of the list of rooms yields strings as room
    entries, on which the loop body raises at once. *)
Lemma rooms_loop_raises_on_strings (keys : list value) (scene : Scene) :
  keys <> [] -> Forall (fun v => is_str v = true) keys ->
  exists e, for_each add_room keys scene = Raise e.
Proof.
  intros Hne Hall. destruct keys as [|k rest]; [contradiction|].
  inversion Hall as [|? ? Hk _]; subst.
  destruct k; try discriminate Hk. simpl. eexists; reflexivity.
Qed.

Lemma chars_are_strings (s : string) : Forall (fun v => is_str v = true) (chars s).
Proof. induction s; simpl; constructor; auto. Qed.

Lemma keys_are_strings (items : list (string * value)) :
  Forall (fun v => is_str v = true) (map (fun kv => Str (fst kv)) items).
Proof. induction items; simpl; constructor; auto. Qed.

(** The [try] block either takes the template path itself or raises whenever
    the description is not renderable. *)
Lemma try_block_not_renderable (room_data : value) (bhk : Z) (sqft : Q) :
  renderable room_data = false ->
  generate_glb_from_json_try room_data bhk sqft =
    Ok (generate_realistic_house_glb bhk sqft) \/
  exists e, generate_glb_from_json_try room_data bhk sqft = Raise e.
Proof.
  unfold renderable, generate_glb_from_json_try.
  destruct (rooms_of room_data) as [|b|q|s|l|items]; intros H.
  - left; reflexivity.
  - destruct b; [right; eexists; reflexivity|left; reflexivity].
  - simpl. destruct (negb (Qeq_bool q 0));
      [right; eexists; reflexivity|left; reflexivity].
  - simpl. destruct (negb (String.eqb s EmptyString)) eqn:Hs; [|left; reflexivity].
    right. simpl.
    destruct (rooms_loop_raises_on_strings (chars s) new_scene) as [e E].
    + destruct s; [discriminate Hs|discriminate].
    + apply chars_are_strings.
    + rewrite E. eexists; reflexivity.
  - destruct l as [|room rest]; [left; reflexivity|].
    right. cbn [truthy iterate bind].
    destruct (rooms_loop_raises (room :: rest) H new_scene) as [e E].
    rewrite E. eexists; reflexivity.
  - destruct items as [|kv rest]; [left; reflexivity|].
    right. cbn [truthy iterate bind].
    destruct (rooms_loop_raises_on_strings
                (map (fun kv => Str (fst kv)) (kv :: rest)) new_scene) as [e E].
    + discriminate.
    + apply keys_are_strings.
    + rewrite E. eexists; reflexivity.
Qed.




(** The builder never raises. *)
Lemma generate_glb_from_json_total (room_data : value) (bhk : Z) (sqft : Q) :
  exists scene, generate_glb_from_json room_data bhk sqft = Ok scene.
Proof.
  unfold generate_glb_from_json.
  destruct (generate_glb_from_json_try room_data bhk sqft);
    eexists; reflexivity.
Qed.







(** C7 fails on the code: for the room of the prompt's own example (14 ft by
    12 ft at position (0, 0)) the room box is centred on its position, so it
    spans x in [-2.13, 2.13] and y in [-1.83, 1.83], while the floor slab is
    laid out as if the position were the room's corner and spans
    [-1, 5.27] by [-1, 4.66]: the slab does not cover the room. *)
Theorem floor_slab_misses_room_box :
  renderable prompt_example = true /\
  exists scene room_box floor,
    generate_glb_from_json prompt_example 3 1200 = Ok scene /\
    node_names scene = ["Master Bedroom"; "floor"] /\
    find_node "Master Bedroom" scene = Some room_box /\
    find_node "floor" scene = Some floor /\
    x_min room_box == - (14 / 3.28) / 2 /\ x_max room_box == 14 / 3.28 / 2 /\
    y_min room_box == - (12 / 3.28) / 2 /\ y_max room_box == 12 / 3.28 / 2 /\
    x_min floor == - (1) /\ x_max floor == 14 / 3.28 + 1 /\
    y_min floor == - (1) /\ y_max floor == 12 / 3.28 + 1 /\
    x_min room_box < x_min floor /\ y_min room_box < y_min floor /\
    covers floor room_box = false.
Proof.
  split; [reflexivity|].
  do 3 eexists.
  split; [vm_compute; reflexivity|].
  split; [reflexivity|].
  split; [reflexivity|].
  split; [reflexivity|].
  repeat split; vm_compute; reflexivity.
Qed.
(** * Further properties of the code *)

(** ** The district table *)

Import Districts.

Lemma listed_In (pincode : string) (data : district) :
  listed pincode data = true <-> In pincode (pincodes data).
Proof.
  unfold listed. rewrite existsb_exists. split.
  - intros [q [Hq E]]. apply String.eqb_eq in E. subst. exact Hq.
  - intros H. exists pincode. split; [exact H|apply String.eqb_refl].
Qed.

(** What the two loops return on any table: both stop at the same item. *)
Lemma lookups_agree_on (table : list district) (pincode : string) :
  (Forall (fun data => listed pincode data = false) table /\
   district_in table pincode = "Unknown" /\ rate_in table pincode = 1500%Z) \/
  (exists data,
      In data table /\ listed pincode data = true /\
      district_in table pincode = district_name data /\
      rate_in table pincode =
        Z.quot (fst (rate_range data) + snd (rate_range data)) 2).
Proof.
  induction table as [|data rest IH]; simpl.
  - left. repeat split. constructor.
  - destruct (listed pincode data) eqn:E.
    + right. exists data. repeat split; auto.
      destruct (rate_range data); reflexivity.
    + destruct IH as [(Hall & Hd & Hr)|(data' & Hin & Hl & Hd & Hr)].
      * left. repeat split; auto.
      * right. exists data'. repeat split; auto.
Qed.

Lemma unlisted_not_in (table : list district) (pincode : string) :
  Forall (fun data => listed pincode data = false) table ->
  ~ In pincode (flat_map pincodes table).
Proof.
  induction 1 as [|data rest Hd _ IH]; simpl; [tauto|].
  rewrite in_app_iff. intros [H|H]; [|exact (IH H)].
  apply listed_In in H. congruence.
Qed.

(** X1: the rate and the district name come from the same table item.  A
    pincode the table does not list gets the district "Unknown" and the rate
    1500; a listed one gets the name of a district that lists it and the exact
    midpoint of that district's rate range, which lies within the range. *)
Theorem rate_and_district_agree (pincode : string) :
  (~ In pincode all_pincodes /\
   get_district_for_pincode pincode = "Unknown" /\
   get_rate_for_pincode pincode = 1500%Z) \/
  (exists data,
      In data TAMIL_NADU_DISTRICTS /\ In pincode (pincodes data) /\
      get_district_for_pincode pincode = district_name data /\
      (2 * get_rate_for_pincode pincode =
         fst (rate_range data) + snd (rate_range data))%Z /\
      (fst (rate_range data) <= get_rate_for_pincode pincode
         <= snd (rate_range data))%Z).
Proof.
  unfold get_district_for_pincode, get_rate_for_pincode, all_pincodes.
  destruct (lookups_agree_on TAMIL_NADU_DISTRICTS pincode)
    as [(Hall & Hd & Hr)|(data & Hin & Hl & Hd & Hr)].
  - left. split; [apply unlisted_not_in, Hall|]. auto.
  - right. exists data. split; [exact Hin|]. split; [apply listed_In, Hl|].
    split; [exact Hd|]. rewrite Hr.
    assert (Hok : forallb
                    (fun d =>
                       let s := (fst (rate_range d) + snd (rate_range d))%Z in
                       ((2 * Z.quot s 2 =? s) &&
                        (fst (rate_range d) <=? Z.quot s 2) &&
                        (Z.quot s 2 <=? snd (rate_range d)))%Z)
                    TAMIL_NADU_DISTRICTS = true) by (vm_compute; reflexivity).
    rewrite forallb_forall in Hok. specialize (Hok data Hin). cbv zeta in Hok.
    apply Bool.andb_true_iff in Hok. destruct Hok as [Hok H3].
    apply Bool.andb_true_iff in Hok. destruct Hok as [H1 H2].
    apply Z.eqb_eq in H1. apply Z.leb_le in H2. apply Z.leb_le in H3.
    auto.
Qed.

(** X2: whatever the pincode, the rate is between 1200 and 15000 and is a
    multiple of 50. *)
Theorem rate_bounds (pincode : string) :
  (1200 <= get_rate_for_pincode pincode <= 15000)%Z /\
  (get_rate_for_pincode pincode mod 50 = 0)%Z.
Proof.
  unfold get_rate_for_pincode.
  destruct (lookups_agree_on TAMIL_NADU_DISTRICTS pincode)
    as [(_ & _ & Hr)|(data & Hin & _ & _ & Hr)]; rewrite Hr.
  - split; [lia|reflexivity].
  - assert (Hok : forallb
                    (fun d =>
                       let r := Z.quot (fst (rate_range d) + snd (rate_range d)) 2 in
                       ((1200 <=? r) && (r <=? 15000) && (r mod 50 =? 0))%Z)
                    TAMIL_NADU_DISTRICTS = true) by (vm_compute; reflexivity).
    rewrite forallb_forall in Hok. specialize (Hok data Hin). cbv zeta in Hok.
    apply Bool.andb_true_iff in Hok. destruct Hok as [Hok H3].
    apply Bool.andb_true_iff in Hok. destruct Hok as [H1 H2].
    apply Z.eqb_eq in H3. apply Z.leb_le in H1. apply Z.leb_le in H2.
    auto.
Qed.

(** X3: no pincode is listed under two districts: whichever district lists a
    pincode is the one both lookups use, so the result does not depend on the
    order of the table. *)
Theorem listing_district_is_returned (pincode : string) (data : district) :
  In data TAMIL_NADU_DISTRICTS ->
  In pincode (pincodes data) ->
  get_district_for_pincode pincode = district_name data /\
  get_rate_for_pincode pincode =
    Z.quot (fst (rate_range data) + snd (rate_range data)) 2.
Proof.
  intros Hd Hp.
  assert (Hok : forallb
                  (fun d =>
                     forallb
                       (fun p =>
                          String.eqb (get_district_for_pincode p) (district_name d) &&
                          (get_rate_for_pincode p =?
                             Z.quot (fst (rate_range d) + snd (rate_range d)) 2)%Z)
                       (pincodes d))
                  TAMIL_NADU_DISTRICTS = true) by (vm_compute; reflexivity).
  rewrite forallb_forall in Hok. specialize (Hok data Hd).
  rewrite forallb_forall in Hok. specialize (Hok pincode Hp).
  apply Bool.andb_true_iff in Hok. destruct Hok as [H1 H2].
  apply String.eqb_eq in H1. apply Z.eqb_eq in H2. auto.
Qed.

Lemma listing_district_is_returned_witness :
  get_district_for_pincode "641601" = "Tiruppur" /\
  get_rate_for_pincode "641601" = 3600%Z.
Proof.
  apply (listing_district_is_returned "641601"
           (mkDistrict "Tiruppur" (1200, 6000)%Z ["641601"; "641602"; "641687"])).
  - do 30 right. left. reflexivity.
  - left. reflexivity.
Defined.

(** X4: the hundredth Chennai entry is built as "6000" followed by "100":
    every pincode with a known district has six characters, except the
    seven-character "6000100", and the six-digit "600100" is unknown. *)
Theorem known_pincode_length (pincode : string) :
  get_district_for_pincode pincode <> "Unknown" ->
  (String.length pincode = 6%nat \/ pincode = "6000100") /\
  get_district_for_pincode "600100" = "Unknown" /\
  get_district_for_pincode "6000100" = "Chennai".
Proof.
  intros Hk. split; [|split; vm_compute; reflexivity].
  destruct (lookups_agree_on TAMIL_NADU_DISTRICTS pincode)
    as [(_ & Hd & _)|(data & Hin & Hp & _)]; [contradiction|].
  assert (Hall : In pincode all_pincodes).
  { unfold all_pincodes. apply in_flat_map. exists data.
    split; [exact Hin|apply listed_In, Hp]. }
  assert (Hok : forallb
                  (fun p => (String.length p =? 6)%nat || String.eqb p "6000100")
                  all_pincodes = true) by (vm_compute; reflexivity).
  rewrite forallb_forall in Hok. specialize (Hok pincode Hall).
  apply Bool.orb_true_iff in Hok. destruct Hok as [H|H].
  - left. apply Nat.eqb_eq, H.
  - right. apply String.eqb_eq, H.
Qed.

Lemma known_pincode_length_witness :
  (String.length "6000100" = 6%nat \/ "6000100" = "6000100") /\
  get_district_for_pincode "600100" = "Unknown" /\
  get_district_for_pincode "6000100" = "Chennai".
Proof.
  apply (known_pincode_length "6000100"). vm_compute. discriminate.
Defined.

Lemma rates_get_default (table : list (string * Z)) (pincode : string) (default : Z) :
  ~ In pincode (map fst table) -> rates_get table pincode default = default.
Proof.
  induction table as [|[k v] rest IH]; simpl; [reflexivity|].
  intros H. destruct (String.eqb_spec k pincode) as [->|_]; [tauto|].
  apply IH. tauto.
Qed.

(** X5: the two rate sources of the rate lookup agree on a pincode exactly
    when neither knows it (both then give 1500): for every pincode of the
    district table and every key of the fallback table the district module
    and the fallback table give different rates. *)
Theorem rate_sources_agree_iff (pincode : string) :
  lookup_rate true pincode = lookup_rate false pincode <->
  ~ In pincode all_pincodes /\ ~ In pincode (map fst PINCODE_RATES).
Proof.
  assert (Hd : forallb
                 (fun p => negb (lookup_rate true p =? lookup_rate false p)%Z)
                 all_pincodes = true) by (vm_compute; reflexivity).
  assert (Hf : forallb
                 (fun p => negb (lookup_rate true p =? lookup_rate false p)%Z)
                 (map fst PINCODE_RATES) = true) by (vm_compute; reflexivity).
  rewrite forallb_forall in Hd, Hf.
  split.
  - intros E. split; intros Hin.
    + specialize (Hd pincode Hin). rewrite E, Z.eqb_refl in Hd. discriminate Hd.
    + specialize (Hf pincode Hin). rewrite E, Z.eqb_refl in Hf. discriminate Hf.
  - intros [H1 H2]. unfold lookup_rate.
    rewrite (rates_get_default PINCODE_RATES pincode 1500 H2).
    unfold get_rate_for_pincode.
    destruct (lookups_agree_on TAMIL_NADU_DISTRICTS pincode)
      as [(_ & _ & Hr)|(data & Hin & Hl & _)]; [exact Hr|].
    exfalso. apply H1. unfold all_pincodes. apply in_flat_map.
    exists data. split; [exact Hin|apply listed_In, Hl].
Qed.

(** ** Furniture *)

Import Placement.






Lemma withinb_within (x y w d : Q) (m : Trimesh) :
  withinb x y w d m = true -> within x y w d m.
Proof.
  unfold withinb, within. intros H.
  repeat (apply Bool.andb_true_iff in H; destruct H as [H ?]).
  repeat split; apply Qle_bool_iff; assumption.
Qed.

(** X8: in each of the four templates every piece of furniture lies within
    the footprint of the room it is made for, the 2 by 2 bathrooms included. *)
Theorem template_furniture_within_rooms (bhk : Z) :
  Forall (fun r =>
            Forall (fun item =>
                      within (House.x r) (House.y r) (House.w r) (House.d r)
                             (snd item))
                   (room_furniture r))
         (house_rooms bhk).
Proof.
  assert (H : forallb
                (fun r =>
                   forallb (fun item =>
                              withinb (House.x r) (House.y r) (House.w r)
                                      (House.d r) (snd item))
                           (room_furniture r))
                (house_rooms bhk) = true)
    by (by_template bhk; vm_compute; reflexivity).
  rewrite forallb_forall in H.
  apply Forall_forall. intros r Hr. apply Forall_forall. intros item Hi.
  specialize (H r Hr). rewrite forallb_forall in H.
  apply withinb_within, H, Hi.
Qed.

(** ** Landscaping *)

Import SceneSpec.


(** ** The template scene as a whole *)

Lemma nodupb_NoDup (l : list string) : nodupb l = true -> NoDup l.
Proof.
  induction l as [|s rest IH]; simpl; intros H; constructor.
  - apply Bool.andb_true_iff in H. destruct H as [H _].
    apply Bool.negb_true_iff in H. intros Hin.
    assert (E : existsb (String.eqb s) rest = true).
    { apply existsb_exists. exists s. split; [exact Hin|apply String.eqb_refl]. }
    congruence.
  - apply IH. apply Bool.andb_true_iff in H. tauto.
Qed.

(** X10: for every room count and area the nodes of the template scene have
    pairwise different names, so no node added later takes the place of an
    earlier one; the scene has one floor node per template room. *)
Theorem template_scene_names_distinct (bhk : Z) (sqft : Q) :
  NoDup (node_names (generate_realistic_house_glb bhk sqft)) /\
  filter is_floor (node_names (generate_realistic_house_glb bhk sqft)) =
    map (fun r => House.name r ++ "_floor") (house_rooms bhk).
Proof.
  unfold generate_realistic_house_glb. cbv zeta.
  split.
  - apply nodupb_NoDup. by_template bhk; vm_compute; reflexivity.
  - by_template bhk; vm_compute; reflexivity.
Qed.

(** X11: in every template scene the ground slab covers the footprint of
    every room floor, piece of furniture, perimeter wall and tree trunk; the
    only nodes that reach beyond it are the four tree crowns and the
    driveway. *)
Theorem ground_covers_all_but_crowns_and_driveway (bhk : Z) (sqft : Q) :
  exists ground,
    find_node "Ground" (generate_realistic_house_glb bhk sqft) = Some ground /\
    Forall (fun nd =>
              covers ground (snd nd) = negb (crown_or_driveway (fst nd)))
           (generate_realistic_house_glb bhk sqft).
Proof.
  unfold generate_realistic_house_glb. cbv zeta.
  by_template bhk;
    (eexists; split; [vm_compute; reflexivity|]);
    apply Forall_forall; intros nd Hin;
    match goal with
    | H : In nd ?s |- _ =>
        let s' := eval vm_compute in s in change s with s' in H
    end;
    simpl in Hin;
    repeat (destruct Hin as [<-|Hin]; [vm_compute; reflexivity|]);
    contradiction.
Qed.

(** X12: in every template scene the driveway runs under the two trees on
    its side of the house: the trunks of Tree_1 and Tree_2 stand within the
    footprint of the driveway, those of Tree_3 and Tree_4 do not. *)
Theorem driveway_under_two_trees (bhk : Z) (sqft : Q) :
  exists driveway t1 t2 t3 t4,
    let scene := generate_realistic_house_glb bhk sqft in
    find_node "Driveway" scene = Some driveway /\
    find_node "Tree_1_trunk" scene = Some t1 /\
    find_node "Tree_2_trunk" scene = Some t2 /\
    find_node "Tree_3_trunk" scene = Some t3 /\
    find_node "Tree_4_trunk" scene = Some t4 /\
    covers driveway t1 = true /\ covers driveway t2 = true /\
    covers driveway t3 = false /\ covers driveway t4 = false.
Proof.
  unfold generate_realistic_house_glb. cbv zeta.
  by_template bhk;
    do 5 eexists; cbv zeta;
    repeat (split; [vm_compute; reflexivity|]); vm_compute; reflexivity.
Qed.

(** ** Internal walls in general *)

Import WallSpec.








(** ** The JSON-driven path in general *)

Import PathASpec.




Import PathAExamples.









(** ** The floor plan in general *)

Import SvgSpec.

(** Replaces the selected 2D template by each of the four concrete lists. *)
Ltac by_plan bhk :=
  destruct (plan_rooms_cases bhk) as [[_ E]|[[_ E]|[[_ E]|(_ & _ & _ & E)]]];
  rewrite E; clear E.

(** X18: for every room count the markup holds one rectangle and one label
    per room of the selected 2D template, plus the background rectangle, one
    opening [svg] tag, and it ends with the closing tag. *)
Theorem floor_plan_elements (bhk : Z) (sqft : Q) :
  let svg := Svg.generate_svg_floor_plan bhk sqft in
  let n := List.length (Svg.plan_rooms bhk) in
  count_occurrences "<rect " svg = S n /\
  count_occurrences "<text " svg = n /\
  count_occurrences "</text>" svg = n /\
  count_occurrences "<svg " svg = 1%nat /\
  PyStr.endswith "</svg>" svg = true.
Proof.
  unfold Svg.generate_svg_floor_plan. cbv zeta.
  by_plan bhk; repeat split; vm_compute; reflexivity.
Qed.

(** X19: the rectangles of the floor plan all lie on the 800 by 600 canvas
    exactly for the room counts 1, 2 and 3; for every other room count the
    plan has a room that reaches beyond the right edge of the canvas. *)
Theorem floor_plan_on_canvas_iff (bhk : Z) :
  forallb on_canvas (Svg.plan_rooms bhk) = true <->
  (bhk = 1 \/ bhk = 2 \/ bhk = 3)%Z.
Proof.
  destruct (plan_rooms_cases bhk) as [[H E]|[[H E]|[[H E]|(H1 & H2 & H3 & E)]]];
    rewrite E.
  - split; [auto|reflexivity].
  - split; [auto|reflexivity].
  - split; [auto|reflexivity].
  - split.
    + intros C. vm_compute in C. discriminate C.
    + intros [C|[C|C]]; contradiction.
Qed.

(** X20: for every room count no two rectangles of the floor plan overlap. *)
Theorem floor_plan_rooms_disjoint (bhk : Z) (i j : nat) (r1 r2 : Svg.room2d) :
  i <> j ->
  nth_error (Svg.plan_rooms bhk) i = Some r1 ->
  nth_error (Svg.plan_rooms bhk) j = Some r2 ->
  rects_overlap r1 r2 = false.
Proof.
  intros Hij H1 H2.
  apply Bool.negb_true_iff.
  apply (all_distinct_pairs_sound
           (fun a b => negb (rects_overlap a b)) (Svg.plan_rooms bhk))
    with (i := i) (j := j); trivial.
  by_plan bhk; vm_compute; reflexivity.
Qed.

Lemma floor_plan_rooms_disjoint_witness :
  rects_overlap (Svg.mkRoom2d "Living" 50 50 250 200)
                (Svg.mkRoom2d "Bedroom 1" 350 50 200 200) = false.
Proof.
  apply (floor_plan_rooms_disjoint 2 0%nat 1%nat).
  - discriminate.
  - reflexivity.
  - reflexivity.
Defined.

(** ** The chat flow *)

Lemma converse_from (call : list Chat.message -> string) (prompt : string)
    (user_messages : list string) :
  forall history last,
    user_messages <> [] ->
    exists history' r,
      Chat.converse call prompt history user_messages last = (history', Some r) /\
      List.length history' =
        (List.length history + 2 * List.length user_messages)%nat /\
      Chat.smart_chips r =
        (if (4 <? List.length history')%nat then Chat.chips_features
         else if (2 <? List.length history')%nat then Chat.chips_rooms
         else Chat.chips_initial) /\
      Chat.ready_to_generate r =
        (PyStr.contains "ready to generate" (PyStr.lower (Chat.response r)) ||
         (8 <? List.length history')%nat).
Proof.
  induction user_messages as [|m rest IH]; intros history last Hne;
    [contradiction|].
  cbn [Chat.converse]. unfold Chat.chat at 1. cbv zeta.
  destruct rest as [|m' rest'].
  - cbn [Chat.converse]. eexists; eexists. split; [reflexivity|].
    cbn [Chat.smart_chips Chat.ready_to_generate Chat.response].
    repeat rewrite length_app. simpl. split; [lia|]. split; reflexivity.
  - match goal with
    | |- context [Chat.converse call prompt ?h (m' :: rest') ?l] =>
        destruct (IH h l) as [history' [r (E & Hl & Hc & Hr)]];
          [discriminate|]
    end.
    exists history', r. split; [exact E|].
    split; [|split; assumption].
    rewrite Hl. repeat rewrite length_app. simpl. lia.
Qed.

(** X21: a conversation of n >= 1 chat calls after [init_chat] leaves
    1 + 2n messages in the session; the first call offers the room
    suggestions and every later call the feature suggestions (the initial
    suggestions are never offered again); from the fourth call on
    [ready_to_generate] is true whatever the assistant answered, and before
    that it is true exactly when the answer contains "ready to generate" in
    any letter case. *)
Theorem chat_flow_after_init (call : list Chat.message -> string)
    (prompt initial_message : string) (user_messages : list string) :
  user_messages <> [] ->
  exists history r,
    Chat.converse call prompt (Chat.init_chat_history initial_message)
                  user_messages None = (history, Some r) /\
    List.length history = (1 + 2 * List.length user_messages)%nat /\
    Chat.smart_chips r =
      (if (List.length user_messages =? 1)%nat then Chat.chips_rooms
       else Chat.chips_features) /\
    Chat.ready_to_generate r =
      (PyStr.contains "ready to generate" (PyStr.lower (Chat.response r)) ||
       (4 <=? List.length user_messages)%nat).
Proof.
  intros Hne.
  destruct (converse_from call prompt user_messages
              (Chat.init_chat_history initial_message) None Hne)
    as [history [r (E & Hl & Hc & Hr)]].
  exists history, r. split; [exact E|].
  assert (Hl' : List.length history = (1 + 2 * List.length user_messages)%nat)
    by (rewrite Hl; reflexivity).
  split; [exact Hl'|].
  assert (Hn : (1 <= List.length user_messages)%nat)
    by (destruct user_messages; [contradiction|simpl; lia]).
  split.
  - rewrite Hc.
    destruct (Nat.ltb_spec 4 (List.length history)),
             (Nat.ltb_spec 2 (List.length history)),
             (Nat.eqb_spec (List.length user_messages) 1);
      try reflexivity; lia.
  - rewrite Hr. f_equal.
    destruct (Nat.ltb_spec 8 (List.length history)),
             (Nat.leb_spec 4 (List.length user_messages));
      try reflexivity; lia.
Qed.

Lemma chat_flow_after_init_witness :
  exists history r,
    Chat.converse (fun _ => "Tell me more") "You are a helpful assistant"
                  (Chat.init_chat_history "Great!")
                  ["a"; "b"; "c"; "d"] None = (history, Some r) /\
    List.length history = (1 + 2 * List.length ["a"; "b"; "c"; "d"])%nat /\
    Chat.smart_chips r =
      (if (List.length ["a"; "b"; "c"; "d"] =? 1)%nat then Chat.chips_rooms
       else Chat.chips_features) /\
    Chat.ready_to_generate r =
      (PyStr.contains "ready to generate" (PyStr.lower (Chat.response r)) ||
       (4 <=? List.length ["a"; "b"; "c"; "d"])%nat).
Proof.
  apply (chat_flow_after_init (fun _ => "Tell me more")
           "You are a helpful assistant" "Great!" ["a"; "b"; "c"; "d"]).
  discriminate.
Defined.

Lemma alternates_app (first : bool) (h t : list Chat.message) :
  Chat.alternates first (h ++ t) =
    Chat.alternates first h &&
    Chat.alternates (if Nat.even (List.length h) then first else negb first) t.
Proof.
  revert first. induction h as [|m h IH]; intros first.
  - reflexivity.
  - change (Chat.alternates first ((m :: h) ++ t))
      with (String.eqb (Chat.role m) (if first then "assistant" else "user") &&
            Chat.alternates (negb first) (h ++ t)).
    change (Chat.alternates first (m :: h))
      with (String.eqb (Chat.role m) (if first then "assistant" else "user") &&
            Chat.alternates (negb first) h).
    rewrite IH, Bool.andb_assoc.
    change (List.length (m :: h)) with (S (List.length h)).
    rewrite Nat.even_succ, <- Nat.negb_even.
    destruct (Nat.even (List.length h)); simpl;
      rewrite ?Bool.negb_involutive; reflexivity.
Qed.

Lemma converse_alternates (call : list Chat.message -> string) (prompt : string)
    (user_messages : list string) :
  forall history last,
    Chat.alternates true history = true ->
    Nat.even (List.length history) = false ->
    let history' :=
      fst (Chat.converse call prompt history user_messages last) in
    Chat.alternates true history' = true /\
    Nat.even (List.length history') = false /\
    exists appended, history' = (history ++ appended)%list.
Proof.
  induction user_messages as [|m rest IH]; intros history last Ha He; cbv zeta.
  - cbn [Chat.converse fst]. split; [exact Ha|]. split; [exact He|].
    exists []. rewrite app_nil_r. reflexivity.
  - cbn [Chat.converse].
    destruct (Chat.chat call prompt history m) as [h1 r1] eqn:Ec.
    assert (Eh : exists answer,
                 h1 = (history ++ [Chat.mkMessage "user" m;
                                   Chat.mkMessage "assistant" answer])%list).
    { unfold Chat.chat in Ec. cbv zeta in Ec. injection Ec as <- _.
      rewrite <- app_assoc. eexists. reflexivity. }
    destruct Eh as [answer Eh].
    destruct (IH h1 (Some r1)) as (H1 & H2 & [appended H3]).
    + rewrite Eh, alternates_app, Ha, He. reflexivity.
    + rewrite Eh, length_app, Nat.even_add, He. reflexivity.
    + cbv zeta in H1, H2, H3. split; [exact H1|]. split; [exact H2|].
      rewrite H3, Eh, <- app_assoc. eexists. reflexivity.
Qed.

(** X22: a conversation after [init_chat] keeps every earlier message in
    place and only appends to the history, and the roles in the history
    alternate, beginning and ending with the assistant, whatever the remote
    model answers. *)
Theorem chat_history_alternates (call : list Chat.message -> string)
    (prompt initial_message : string) (user_messages : list string) :
  let history :=
    fst (Chat.converse call prompt (Chat.init_chat_history initial_message)
                       user_messages None) in
  Chat.alternates true history = true /\
  Nat.even (List.length history) = false /\
  exists appended,
    history = (Chat.init_chat_history initial_message ++ appended)%list.
Proof.
  apply (converse_alternates call prompt user_messages
           (Chat.init_chat_history initial_message) None); reflexivity.
Qed.

(** ** The prompt builder *)

Lemma last_n_suffix {A : Type} (n : nat) (older recent : list A) :
  List.length recent = n -> Prompt.last_n n (older ++ recent) = recent.
Proof.
  intros H. unfold Prompt.last_n. rewrite length_app, H.
  replace (List.length older + n - n)%nat with (List.length older) by lia.
  rewrite skipn_app, skipn_all, Nat.sub_diag. reflexivity.
Qed.

Lemma last_n_short {A : Type} (n : nat) (l : list A) :
  (List.length l <= n)%nat -> Prompt.last_n n l = l.
Proof.
  intros H. unfold Prompt.last_n.
  replace (List.length l - n)%nat with 0%nat by lia. reflexivity.
Qed.

(** X23: the prompt sent to the model carries only the last six messages of
    the conversation: whatever was said before them does not change the
    prompt. *)
Theorem prompt_uses_last_six (bhk sqft : Z) (facing style : string)
    (older recent : list Chat.message) :
  List.length recent = 6%nat ->
  Prompt.build_gemini_prompt_from_conversation bhk sqft facing style
    (older ++ recent) =
  Prompt.build_gemini_prompt_from_conversation bhk sqft facing style recent.
Proof.
  intros H. unfold Prompt.build_gemini_prompt_from_conversation. cbv zeta.
  rewrite (last_n_suffix 6 older recent H).
  rewrite (last_n_short 6 recent) by lia. reflexivity.
Qed.

Lemma prompt_uses_last_six_witness :
  Prompt.build_gemini_prompt_from_conversation 2 1000 "East" "Modern"
    ([Chat.mkMessage "assistant" "Great!"; Chat.mkMessage "user" "hello"] ++
     [Chat.mkMessage "assistant" "a1"; Chat.mkMessage "user" "u1";
      Chat.mkMessage "assistant" "a2"; Chat.mkMessage "user" "u2";
      Chat.mkMessage "assistant" "a3"; Chat.mkMessage "user" "u3"]) =
  Prompt.build_gemini_prompt_from_conversation 2 1000 "East" "Modern"
    [Chat.mkMessage "assistant" "a1"; Chat.mkMessage "user" "u1";
     Chat.mkMessage "assistant" "a2"; Chat.mkMessage "user" "u2";
     Chat.mkMessage "assistant" "a3"; Chat.mkMessage "user" "u3"].
Proof.
  apply (prompt_uses_last_six 2 1000 "East" "Modern"). reflexivity.
Defined.

(** ** The choice of the scene in [generate_final] *)

(** X24: the guard [if plan_json] of [generate_final] changes nothing: for
    every parsed plan, and in particular for [None] after a failed parse, the
    scene is the one the JSON-driven builder returns on that plan. *)
Theorem generate_final_scene (plan_json : value) (bhk : Z) (sqft : Q) :
  Final.generate_final_glb plan_json bhk sqft =
    generate_glb_from_json plan_json bhk sqft.
Proof.
  unfold Final.generate_final_glb.
  destruct (truthy plan_json) eqn:Ht; [reflexivity|].
  cbv zeta. symmetry.
  unfold generate_glb_from_json.
  destruct (try_block_not_renderable plan_json bhk sqft) as [E|[e E]];
    [|rewrite E; reflexivity|rewrite E; reflexivity].
  unfold renderable.
  destruct plan_json as [|b|q|s|l|items]; try reflexivity.
  destruct items; [reflexivity|discriminate Ht].
Qed.



